(** * ithapp: telemetry ingestion and device registry (server.js)

    A shallow embedding of the Express/MySQL back end of the repository:
    the pure helpers ([normalizarDevEui], [lecturaValida]), the relational
    store seen through the SQL statements the handlers issue, and the
    handlers themselves as programs that suspend at every [await].

    Conventions.
    - A JavaScript number is a [number]: a finite double is the rational it
      denotes (IEEE comparison of finite doubles is comparison of their
      values), plus the two infinities and NaN.
    - A request field that may be missing is an [option]; [None] stands for
      both [undefined] and [null].
    - What the platform provides and the repository does not define
      ([String.prototype.toUpperCase], [trim], the column collation of
      [sensores.dev_eui], SQL [UPPER]/[TRIM], base64) is a Section variable. *)

From Stdlib Require Import ZArith QArith List String Ascii Bool Lia.
Import ListNotations.

Set Implicit Arguments.

Local Open Scope string_scope.
Local Open Scope Z_scope.

(* ===================================================================== *)
(** ** JavaScript values *)
(* ===================================================================== *)

Inductive number : Type :=
| NaN
| Infinity (negative : bool)
| Finite (q : Q).

Inductive value : Type :=
| VUndefined
| VNull
| VBoolean (b : bool)
| VNumber (n : number)
| VString (s : string)
| VObject.

Definition typeof (v : value) : string :=
  match v with
  | VUndefined => "undefined"
  | VNull => "object"
  | VBoolean _ => "boolean"
  | VNumber _ => "number"
  | VString _ => "string"
  | VObject => "object"
  end.

Definition Qltb (a b : Q) : bool :=
  match (a ?= b)%Q with Lt => true | _ => false end.

(** [x < y] on numbers: false as soon as one side is NaN. *)
Definition num_lt (x y : number) : bool :=
  match x, y with
  | NaN, _ | _, NaN => false
  | Finite a, Finite b => Qltb a b
  | Infinity true, Infinity true => false
  | Infinity true, _ => true
  | Finite _, Infinity false => true
  | _, _ => false
  end.

(** [v < c] and [v > c] against a numeric literal.  The handlers only
    evaluate them behind a [typeof v !== "number" ||] guard, so the
    coercion of other values never runs; the model returns [false] there. *)
Definition js_lt (v : value) (c : Q) : bool :=
  match v with VNumber n => num_lt n (Finite c) | _ => false end.

Definition js_gt (v : value) (c : Q) : bool :=
  match v with VNumber n => num_lt (Finite c) n | _ => false end.

(** Truthiness of an optional string ([!s] is its negation): [undefined],
    [null] and the empty string are falsy. *)
Definition truthy (s : option string) : bool :=
  match s with
  | None => false
  | Some "" => false
  | Some _ => true
  end.

(** Truthiness of an optional number read from a JSON body. *)
Definition truthyZ (n : option Z) : bool :=
  match n with
  | None => false
  | Some 0 => false
  | Some _ => true
  end.

(* ===================================================================== *)
(** ** Reading validator *)
(* ===================================================================== *)

(** server.js, [lecturaValida]. *)
Definition lecturaValida (t h i : value) : bool :=
  if negb (typeof t =? "number")%string || js_lt t (-40 # 1) || js_gt t (85 # 1) then false
  else if negb (typeof h =? "number")%string || js_lt h (0 # 1) || js_gt h (100 # 1) then false
  else if negb (typeof i =? "number")%string || js_lt i (0 # 1) || js_gt i (120 # 1) then false
  else true.

(** A value is a number lying in the closed interval [lo, hi]. *)
Definition in_range (lo hi : Q) (v : value) : Prop :=
  exists q, v = VNumber (Finite q) /\ (lo <= q)%Q /\ (q <= hi)%Q.

Definition is_NaN (v : value) : bool :=
  match v with VNumber NaN => true | _ => false end.

(** What one guard of [lecturaValida] lets through: NaN, or a finite
    number of the interval. *)
Definition pasa (lo hi : Q) (v : value) : Prop :=
  is_NaN v = true \/ in_range lo hi v.

(** A finite number as a value. *)
Definition num (q : Q) : value := VNumber (Finite q).

(** The double written [85.1] in a JavaScript source. *)
Definition double_85_1 : Q := 2994190064759603 # 35184372088832.

(* ===================================================================== *)
(** ** EUI normalizer *)
(* ===================================================================== *)

(** The character class [0-9A-F]. *)
Definition es_hex (c : ascii) : bool :=
  let n := nat_of_ascii c in
  ((48 <=? n)%nat && (n <=? 57)%nat) || ((65 <=? n)%nat && (n <=? 70)%nat).

(** [s.replace(/[^0-9A-F]/g, "")]. *)
Fixpoint quitar_no_hex (s : string) : string :=
  match s with
  | EmptyString => EmptyString
  | String c r => if es_hex c then String c (quitar_no_hex r) else quitar_no_hex r
  end.

Fixpoint solo_hex (s : string) : bool :=
  match s with
  | EmptyString => true
  | String c r => es_hex c && solo_hex r
  end.

(** Upper-casing of the ASCII letters; every other character is kept. *)
Definition mayuscula (c : ascii) : ascii :=
  let n := nat_of_ascii c in
  if ((97 <=? n)%nat && (n <=? 122)%nat)%bool then ascii_of_nat (n - 32) else c.

Fixpoint mayusculas (s : string) : string :=
  match s with
  | EmptyString => EmptyString
  | String c r => String (mayuscula c) (mayusculas r)
  end.

Fixpoint es_ascii (s : string) : bool :=
  match s with
  | EmptyString => true
  | String c r => (nat_of_ascii c <? 128)%nat && es_ascii r
  end.

Section Normalizer.

(** [String.prototype.toUpperCase]. *)
Variable toUpperCase : string -> string.

(** server.js, [normalizarDevEui].  [String(raw)] is [raw] on a string. *)
Definition normalizarDevEui (raw : option string) : option string :=
  if negb (truthy raw) then None
  else match raw with
       | Some s => Some (quitar_no_hex (toUpperCase s))
       | None => None
       end.

End Normalizer.

(** What is known of [toUpperCase]: on ASCII text it upper-cases the letters
    a-z and nothing else. *)
Definition upper_on_ascii (toUpperCase : string -> string) : Prop :=
  forall s, es_ascii s = true -> toUpperCase s = mayusculas s.

(* ===================================================================== *)
(** ** The relational store *)
(* ===================================================================== *)

(** A row of [sensores].  A nullable column is an [option]. *)
Record sensor : Type := mkSensor {
  id_sensor : Z;
  nombre_sensor : string;
  id_granja : option Z;
  dev_eui : option string;
  modelo : option string;
  area : option string;
  zona : option string;
  sala : option string;
  modo : option string;
  umbral_ith : option Z;
  dev_id : option string;
  app_id : option string;
  device_id : option string;
  updated_at : option Z
}.

(** A row of [mediciones].  The early webhooks bind whatever the decoded
    payload holds, so the three readings are kept as JavaScript values. *)
Record medicion : Type := mkMedicion {
  id_medicion : Z;
  m_id_sensor : option Z;
  temperatura : value;
  humedad : value;
  ith : value
}.

(** The two tables and their AUTO_INCREMENT counters. *)
Record database : Type := mkDatabase {
  sensores : list sensor;
  mediciones : list medicion;
  auto_sensor : Z;
  auto_medicion : Z
}.

Definition con_sensores (d : database) (l : list sensor) : database :=
  mkDatabase l (mediciones d) (auto_sensor d) (auto_medicion d).

(** Errors thrown by the driver, told apart by their [code]. *)
Inductive error : Type :=
| ER_DUP_ENTRY
| ER_OTRO (code : string).

Definition es_dup (e : error) : bool :=
  match e with ER_DUP_ENTRY => true | ER_OTRO _ => false end.

(** mysql2's result header of an INSERT or UPDATE. *)
Record ResultSetHeader : Type := mkHeader {
  insertId : Z;
  affectedRows : Z
}.

(** The WHERE clause built by the transactional update. *)
Inductive donde : Type :=
| Por_id_sensor (id : Z)
| Por_dev_eui (e : string).

(** The statements the handlers send, indexed by the shape of their rows. *)
Inductive sql : Type -> Type :=
| SelectIdPorDevEui (e : string) : sql (list Z)
| InsertSensor (nombre : string) (e : option string) (granja : option Z) : sql ResultSetHeader
| InsertMedicion (ids : option Z) (t h i : value) : sql ResultSetHeader
| SelectAppDevice (e : string) : sql (list (option string * option string))
| SelectIdEui : sql (list (Z * string))
| UpdateCamposEui (p_modelo p_area p_zona p_sala p_modo : option string)
    (p_umbral : option Z) (id : Z) : sql ResultSetHeader
| UpdateCampos (p_modelo p_area p_zona p_sala p_modo : option string)
    (p_umbral : option Z) (p_dev_id : option string) (w : donde) : sql ResultSetHeader
| UpdateVincular (e : string) (id : Z) : sql ResultSetHeader.

(** [COALESCE(?, col)]. *)
Definition COALESCE {A} (p col : option A) : option A :=
  match p with Some _ => p | None => col end.

Section Store.

(** String equality of the SQL server ([=] under the collation in force). *)
Variable coll_eqb : string -> string -> bool.
(** SQL [UPPER] and [TRIM]. *)
Variable UPPER : string -> string.
Variable TRIM : string -> string.

(** [NULLIF(?, '')]. *)
Definition NULLIF_vacio (p : option string) : option string :=
  match p with
  | Some s => if coll_eqb s "" then None else Some s
  | None => None
  end.

(** [dev_eui = ?]: NULL compares equal to nothing. *)
Definition dev_eui_es (e : string) (s : sensor) : bool :=
  match dev_eui s with Some e' => coll_eqb e' e | None => false end.

(** [dev_eui IS NULL OR dev_eui = '']. *)
Definition sin_dev_eui (s : sensor) : bool :=
  match dev_eui s with Some e' => coll_eqb e' "" | None => true end.

(** [UPPER(TRIM(dev_eui)) = ?]. *)
Definition dev_eui_normalizado_es (e : string) (s : sensor) : bool :=
  match dev_eui s with Some e' => coll_eqb (UPPER (TRIM e')) e | None => false end.

Definition cumple (w : donde) (s : sensor) : bool :=
  match w with
  | Por_id_sensor id => id_sensor s =? id
  | Por_dev_eui e => dev_eui_es e s
  end.

(** Modelled from the spec: the schema of [sensores] is not in the
    repository; section 3 states its uniqueness constraint, "at most one
    Sensor row per non-null EUI value".  [ocupado e excepto rows] holds when
    a row other than [excepto] already carries [e]. *)
Definition ocupado (e : string) (excepto : option Z) (rows : list sensor) : bool :=
  existsb (fun s =>
    dev_eui_es e s &&
    match excepto with Some id => negb (id_sensor s =? id) | None => true end) rows.

(** The SET list of the update of lines 262-270 (located by EUI). *)
Definition set_campos_eui (p_modelo p_area p_zona p_sala p_modo : option string)
    (p_umbral : option Z) (now : Z) (s : sensor) : sensor :=
  mkSensor (id_sensor s) (nombre_sensor s) (id_granja s) (dev_eui s)
    (COALESCE (NULLIF_vacio p_modelo) (modelo s))
    (COALESCE (NULLIF_vacio p_area) (area s))
    (COALESCE p_zona (zona s))
    (COALESCE (NULLIF_vacio p_sala) (sala s))
    (COALESCE (NULLIF_vacio p_modo) (modo s))
    (COALESCE p_umbral (umbral_ith s))
    (dev_id s) (app_id s) (device_id s)
    (Some now).

(** The SET list of the update of lines 659-667 (transactional). *)
Definition set_campos (p_modelo p_area p_zona p_sala p_modo : option string)
    (p_umbral : option Z) (p_dev_id : option string) (now : Z) (s : sensor) : sensor :=
  mkSensor (id_sensor s) (nombre_sensor s) (id_granja s) (dev_eui s)
    (COALESCE p_modelo (modelo s))
    (COALESCE p_area (area s))
    (COALESCE p_zona (zona s))
    (COALESCE p_sala (sala s))
    (COALESCE p_modo (modo s))
    p_umbral
    (COALESCE p_dev_id (dev_id s))
    (app_id s) (device_id s)
    (Some now).

Definition set_dev_eui (e : string) (s : sensor) : sensor :=
  mkSensor (id_sensor s) (nombre_sensor s) (id_granja s) (Some e)
    (modelo s) (area s) (zona s) (sala s) (modo s) (umbral_ith s)
    (dev_id s) (app_id s) (device_id s) (updated_at s).

(** [UPDATE sensores SET ... WHERE cond]: the rows that satisfy [cond] are
    rewritten in place. *)
Definition actualizar (cond : sensor -> bool) (f : sensor -> sensor)
    (rows : list sensor) : list sensor :=
  map (fun s => if cond s then f s else s) rows.

Definition cuenta (cond : sensor -> bool) (rows : list sensor) : Z :=
  Z.of_nat (List.length (filter cond rows)).

Definition nuevo_sensor (id : Z) (nombre : string) (e : option string)
    (granja : option Z) : sensor :=
  mkSensor id nombre granja e None None None None None None None None None None.

(** One statement against the tables at time [now]. *)
Definition exec_sql (now : Z) {X} (q : sql X) (d : database) : error + (X * database) :=
  match q in sql X return error + (X * database) with
  | SelectIdPorDevEui e =>
      inr (map id_sensor (filter (dev_eui_es e) (sensores d)), d)
  | InsertSensor nombre e granja =>
      if match e with Some e' => ocupado e' None (sensores d) | None => false end
      then inl ER_DUP_ENTRY
      else inr (mkHeader (auto_sensor d) 1,
                mkDatabase (sensores d ++ [nuevo_sensor (auto_sensor d) nombre e granja])%list
                  (mediciones d) (auto_sensor d + 1) (auto_medicion d))
  | InsertMedicion ids t h i =>
      inr (mkHeader (auto_medicion d) 1,
           mkDatabase (sensores d)
             (mediciones d ++ [mkMedicion (auto_medicion d) ids t h i])%list
             (auto_sensor d) (auto_medicion d + 1))
  | SelectAppDevice e =>
      inr (firstn 1 (map (fun s => (app_id s, device_id s))
                       (filter (dev_eui_normalizado_es e) (sensores d))), d)
  | SelectIdEui =>
      inr (flat_map (fun s => match dev_eui s with
                              | Some e' => [(id_sensor s, UPPER (TRIM e'))]
                              | None => []
                              end) (sensores d), d)
  | UpdateCamposEui p_modelo p_area p_zona p_sala p_modo p_umbral id =>
      inr (mkHeader 0 (cuenta (cumple (Por_id_sensor id)) (sensores d)),
           con_sensores d
             (actualizar (cumple (Por_id_sensor id))
                (set_campos_eui p_modelo p_area p_zona p_sala p_modo p_umbral now)
                (sensores d)))
  | UpdateCampos p_modelo p_area p_zona p_sala p_modo p_umbral p_dev_id w =>
      inr (mkHeader 0 (cuenta (cumple w) (sensores d)),
           con_sensores d
             (actualizar (cumple w)
                (set_campos p_modelo p_area p_zona p_sala p_modo p_umbral p_dev_id now)
                (sensores d)))
  | UpdateVincular e id =>
      let cond := fun s => (id_sensor s =? id) && sin_dev_eui s in
      if existsb cond (sensores d) && ocupado e (Some id) (sensores d)
      then inl ER_DUP_ENTRY
      else inr (mkHeader 0 (cuenta cond (sensores d)),
                con_sensores d (actualizar cond (set_dev_eui e) (sensores d)))
  end.

End Store.

(* ===================================================================== *)
(** ** The runtime: pool, connection, network server *)
(* ===================================================================== *)

(** The downlink request posted to the network server. *)
Record peticion_ttn : Type := mkPeticion {
  url : string;
  authorization : string;
  f_port : Z;
  frm_payload : string;
  priority : string
}.

Record respuesta_ttn : Type := mkRespuestaTtn {
  r_ok : bool;
  r_status : Z;
  r_text : string
}.

(** Everything a handler can observe or change.
    - [store]: the committed tables;
    - [tx]: the working copy of the transaction open on the leased
      connection, if any;
    - [leased]: connections taken from the pool and not yet released;
    - [faults]: what goes wrong, one entry per awaited operation in the
      order they are awaited ([Some e]: the operation rejects with [e] and
      has no effect; [None] or no entry: it runs);
    - [sent]: the requests posted to the network server, oldest first;
    - [ttn]: what the network server answers;
    - [lastDevEui]: the module-level cache of the early variants. *)
Record world : Type := mkWorld {
  store : database;
  tx : option database;
  leased : nat;
  now : Z;
  faults : list (option error);
  sent : list peticion_ttn;
  ttn : respuesta_ttn;
  lastDevEui : option string
}.

(** The next awaited operation is made to fail. *)
Definition falla_primero (w : world) : bool :=
  match faults w with
  | Some _ :: _ => true
  | _ => false
  end.

Definition con_store (w : world) (d : database) : world :=
  mkWorld d (tx w) (leased w) (now w) (faults w) (sent w) (ttn w) (lastDevEui w).

Definition con_tx (w : world) (t : option database) : world :=
  mkWorld (store w) t (leased w) (now w) (faults w) (sent w) (ttn w) (lastDevEui w).

Definition con_leased (w : world) (n : nat) : world :=
  mkWorld (store w) (tx w) n (now w) (faults w) (sent w) (ttn w) (lastDevEui w).

Definition con_faults (w : world) (f : list (option error)) : world :=
  mkWorld (store w) (tx w) (leased w) (now w) f (sent w) (ttn w) (lastDevEui w).

Definition con_sent (w : world) (l : list peticion_ttn) : world :=
  mkWorld (store w) (tx w) (leased w) (now w) (faults w) l (ttn w) (lastDevEui w).

Definition con_lastDevEui (w : world) (e : option string) : world :=
  mkWorld (store w) (tx w) (leased w) (now w) (faults w) (sent w) (ttn w) e.

(** The operations of the runtime, indexed by what they resolve to. *)
Inductive op : Type -> Type :=
| pool_query {X} (q : sql X) : op X
| pool_getConnection : op unit
| conn_ping : op unit
| conn_release : op unit
| conn_beginTransaction : op unit
| conn_query {X} (q : sql X) : op X
| conn_commit : op unit
| conn_rollback : op unit
| fetch (r : peticion_ttn) : op respuesta_ttn
| res_text (r : respuesta_ttn) : op string
| set_lastDevEui (e : option string) : op unit.

(** [conn.release()] and the assignment to [lastDevEui] are synchronous;
    every other operation is awaited. *)
Definition es_await {X} (o : op X) : bool :=
  match o with
  | conn_release | set_lastDevEui _ => false
  | _ => true
  end.

(** A handler: it returns, throws, or awaits an operation and goes on with
    its outcome (a rejection or a value). *)
Inductive prog (A : Type) : Type :=
| Ret (a : A)
| Throw (e : error)
| Await {X} (o : op X) (k : error + X -> prog A).

Arguments Ret {A} a.
Arguments Throw {A} e.
Arguments Await {A X} o k.

Fixpoint bind {A B} (p : prog A) (f : A -> prog B) : prog B :=
  match p with
  | Ret a => f a
  | Throw e => Throw e
  | Await o k => Await o (fun r => bind (k r) f)
  end.

(** [await o]: a rejection is rethrown at the await. *)
Definition await {X} (o : op X) : prog X :=
  Await o (fun r => match r with inl e => Throw e | inr x => Ret x end).

(** A synchronous call of the runtime ([conn.release()]). *)
Definition sync {X} (o : op X) : prog X := await o.

(** [try { p } catch (e) { h e }]. *)
Fixpoint try_catch {A} (p : prog A) (h : error -> prog A) : prog A :=
  match p with
  | Ret a => Ret a
  | Throw e => h e
  | Await o k => Await o (fun r => try_catch (k r) h)
  end.

(** [try { p } finally { f }]. *)
Fixpoint finally {A} (p : prog A) (f : prog unit) : prog A :=
  match p with
  | Ret a => bind f (fun _ => Ret a)
  | Throw e => bind f (fun _ => Throw e)
  | Await o k => Await o (fun r => finally (k r) f)
  end.

Declare Scope prog_scope.
Delimit Scope prog_scope with prog.
Notation "x <- c ;; k" := (bind c (fun x => k))
  (at level 61, c at next level, right associativity) : prog_scope.
Notation "c ;; k" := (bind c (fun _ => k))
  (at level 61, right associativity) : prog_scope.

(** How a handler ends: with a value, or with an exception nobody caught. *)
Inductive outcome (A : Type) : Type :=
| Returned (a : A)
| Thrown (e : error).

Arguments Returned {A} a.
Arguments Thrown {A} e.

Section Runtime.

Variable coll_eqb : string -> string -> bool.
Variable UPPER : string -> string.
Variable TRIM : string -> string.

Definition sql_en (now : Z) {X} (q : sql X) (d : database) : error + (X * database) :=
  exec_sql coll_eqb UPPER TRIM now q d.

(** The effect of an operation that is not made to fail.  A statement sent
    on the connection runs on the transaction's working copy when one is
    open, and on the committed tables otherwise; a statement that fails
    leaves what it ran on untouched.  START TRANSACTION commits a
    transaction left open on the connection before it opens the new one. *)
Definition efecto {X} (o : op X) (w : world) : (error + X) * world :=
  match o in op X return (error + X) * world with
  | pool_query q =>
      match sql_en (now w) q (store w) with
      | inl e => (inl e, w)
      | inr (x, d) => (inr x, con_store w d)
      end
  | pool_getConnection => (inr tt, con_leased w (S (leased w)))
  | conn_ping => (inr tt, w)
  | conn_release => (inr tt, con_leased w (pred (leased w)))
  | conn_beginTransaction =>
      match tx w with
      | Some t => (inr tt, con_tx (con_store w t) (Some t))
      | None => (inr tt, con_tx w (Some (store w)))
      end
  | conn_query q =>
      match tx w with
      | Some t =>
          match sql_en (now w) q t with
          | inl e => (inl e, w)
          | inr (x, t') => (inr x, con_tx w (Some t'))
          end
      | None =>
          match sql_en (now w) q (store w) with
          | inl e => (inl e, w)
          | inr (x, d) => (inr x, con_store w d)
          end
      end
  | conn_commit =>
      match tx w with
      | Some t => (inr tt, con_tx (con_store w t) None)
      | None => (inr tt, w)
      end
  | conn_rollback => (inr tt, con_tx w None)
  | fetch r => (inr (ttn w), con_sent w (sent w ++ [r])%list)
  | res_text r => (inr (r_text r), w)
  | set_lastDevEui e => (inr tt, con_lastDevEui w e)
  end.

(** One operation: an awaited one first consumes its entry of [faults]. *)
Definition exec {X} (o : op X) (w : world) : (error + X) * world :=
  if es_await o then
    match faults w with
    | Some e :: fs => (inl e, con_faults w fs)
    | None :: fs => efecto o (con_faults w fs)
    | [] => efecto o w
    end
  else efecto o w.

(** A handler run to its end with nothing else running in between. *)
Fixpoint run {A} (p : prog A) (w : world) : outcome A * world :=
  match p with
  | Ret a => (Returned a, w)
  | Throw e => (Thrown e, w)
  | Await o k => let (r, w') := exec o w in run (k r) w'
  end.

(** *** Interleaving at the awaits

    Between two awaits a handler runs alone.  [turno] settles the operation
    a task is suspended on and runs the task on to its next await. *)
Fixpoint sincrono {A} (p : prog A) (w : world) : prog A * world :=
  match p with
  | Await o k =>
      if es_await o then (p, w)
      else let (r, w') := exec o w in sincrono (k r) w'
  | _ => (p, w)
  end.

Definition turno {A} (p : prog A) (w : world) : prog A * world :=
  match p with
  | Await o k => let (r, w') := exec o w in sincrono (k r) w'
  | _ => (p, w)
  end.

Fixpoint poner {A} (i : nat) (x : A) (l : list A) : list A :=
  match l, i with
  | [], _ => []
  | _ :: r, O => x :: r
  | y :: r, S j => y :: poner j x r
  end.

(** The tasks take turns in the order [plan] names them. *)
Fixpoint event_loop {A} (plan : list nat) (ts : list (prog A)) (w : world)
    : list (prog A) * world :=
  match plan with
  | [] => (ts, w)
  | i :: plan' =>
      match nth_error ts i with
      | Some p => let (p', w') := turno p w in event_loop plan' (poner i p' ts) w'
      | None => event_loop plan' ts w
      end
  end.

Fixpoint terminar {A} (ts : list (prog A)) (w : world) : list (outcome A) * world :=
  match ts with
  | [] => ([], w)
  | p :: r =>
      let (o, w1) := run p w in
      let (os, w2) := terminar r w1 in
      (o :: os, w2)
  end.

(** The tasks interleaved as [plan] says, then each run to its end. *)
Definition concurrente {A} (plan : list nat) (ts : list (prog A)) (w : world)
    : list (outcome A) * world :=
  let (ts', w') := event_loop plan ts w in terminar ts' w'.

End Runtime.

(* ===================================================================== *)
(** ** Requests and responses *)
(* ===================================================================== *)

(** The JSON bodies of this server are flat objects. *)
Inductive json : Type :=
| JBool (b : bool)
| JNum (n : Z)
| JStr (s : string).

(** [res.send(text)] or [res.json(object)]. *)
Inductive body : Type :=
| Send (s : string)
| Json (fields : list (string * json)).

Record response : Type := mkResponse {
  status : Z;
  cuerpo : body
}.

Definition json_error (e : string) : body := Json [("error", JStr e)].

(** The decoded payload of an uplink; a field it lacks is [undefined]. *)
Record lectura : Type := mkLectura {
  l_temperatura : value;
  l_humedad : value;
  l_ith : value
}.

(** Body of POST /webhook.  [decoded_payload = None] stands for a missing
    [uplink_message] or a missing (falsy) [decoded_payload]. *)
Record webhook_req : Type := mkWebhook {
  end_device_ids_dev_eui : option string;
  end_device_ids_device_id : option string;
  decoded_payload : option lectura
}.

(** Body of PUT /api/sensores/actualizar. *)
Record actualizar_req : Type := mkActualizar {
  b_id_sensor : option Z;
  b_dev_eui : option string;
  b_modelo : option string;
  b_area : option string;
  b_zona : option string;
  b_sala : option string;
  b_modo : option string;
  b_umbral_ith : option Z;
  b_dev_id : option string
}.

(** Body of POST /api/downlink. *)
Record downlink_req : Type := mkDownlink {
  k_dev_eui : option string;
  k_cmd : option string
}.

(** The value of a field already known to be truthy. *)
Definition texto (o : option string) : string :=
  match o with Some s => s | None => "" end.

Definition entero (o : option Z) : Z :=
  match o with Some n => n | None => 0 end.

(** [a || b] on optional strings. *)
Definition o_bien (a b : option string) : option string :=
  if truthy a then a else b.

(** What the transactional update sends: its WHERE clause, its two
    statements, and whether the second one is sent. *)
Definition seleccion (req : actualizar_req) : donde :=
  if truthyZ (b_id_sensor req)
  then Por_id_sensor (entero (b_id_sensor req))
  else Por_dev_eui (texto (b_dev_eui req)).

Definition stmt_campos (req : actualizar_req) : sql ResultSetHeader :=
  UpdateCampos (b_modelo req) (b_area req) (b_zona req) (b_sala req) (b_modo req)
    (b_umbral_ith req) (b_dev_id req) (seleccion req).

Definition stmt_vincular (req : actualizar_req) : sql ResultSetHeader :=
  UpdateVincular (texto (b_dev_eui req)) (entero (b_id_sensor req)).

Definition ambos (req : actualizar_req) : bool :=
  truthyZ (b_id_sensor req) && truthy (b_dev_eui req).

(** The SET list of the transactional update with the request's values. *)
Definition campos_de (req : actualizar_req) (now : Z) : sensor -> sensor :=
  set_campos (b_modelo req) (b_area req) (b_zona req) (b_sala req) (b_modo req)
    (b_umbral_ith req) (b_dev_id req) now.





(** What the update path may do to the EUI of a row [s], [s'] being the row
    afterwards: keep it, or attach the EUI sent to the row of the id sent
    when that row had none. *)
Definition respeta_dev_eui (coll_eqb : string -> string -> bool) (req : actualizar_req)
    (s s' : sensor) : Prop :=
  id_sensor s' = id_sensor s
  /\ (sin_dev_eui coll_eqb s = false -> dev_eui s' = dev_eui s)
  /\ (dev_eui s' = dev_eui s
      \/ (truthyZ (b_id_sensor req) && truthy (b_dev_eui req) = true
          /\ id_sensor s = entero (b_id_sensor req)
          /\ sin_dev_eui coll_eqb s = true
          /\ dev_eui s' = Some (texto (b_dev_eui req)))).

(** The WHERE clause of the back-link: the row of that id, if it has no EUI. *)
Definition sin_vincular (coll_eqb : string -> string -> bool) (req : actualizar_req)
    (s : sensor) : bool :=
  (id_sensor s =? entero (b_id_sensor req)) && sin_dev_eui coll_eqb s.

(* ===================================================================== *)
(** ** The handlers *)
(* ===================================================================== *)

Section Handlers.

Local Open Scope prog_scope.

(** [String.prototype.toUpperCase], [String.prototype.trim] and
    [Buffer.from(s, 'utf8').toString('base64')]. *)
Variable toUpperCase : string -> string.
Variable trim : string -> string.
Variable base64 : string -> string.
(** [process.env.TTN_API_KEY]. *)
Variable TTN_API_KEY : option string.

(** GET /health (the same in every variant). *)
Definition get_health : prog response :=
  try_catch
    (await pool_getConnection ;;
     await conn_ping ;;
     sync conn_release ;;
     Ret (mkResponse 200 (Json [("ok", JBool true)])))
    (fun _ =>
       Ret (mkResponse 500
              (Json [("ok", JBool false); ("error", JStr "DB ping failed")]))).

(** server.js, [getOrCreateSensorByDevEui]. *)
Definition getOrCreateSensorByDevEui (devEui : string) : prog Z :=
  rows <- await (pool_query (SelectIdPorDevEui devEui)) ;;
  match rows with
  | id :: _ => Ret id
  | [] =>
      ins <- await (pool_query (InsertSensor ("TTN-" ++ devEui) (Some devEui) None)) ;;
      Ret (insertId ins)
  end.

(** POST /webhook, the variant that resolves the sensor and validates the
    reading (server.js lines 354-384). *)
Definition post_webhook (req : webhook_req) : prog response :=
  try_catch
    (let devEui := normalizarDevEui toUpperCase (end_device_ids_dev_eui req) in
     match decoded_payload req with
     | None => Ret (mkResponse 400 (json_error "Payload invalido"))
     | Some p =>
         if negb (truthy devEui)
         then Ret (mkResponse 400 (json_error "Falta dev_eui en el webhook"))
         else
           if negb (lecturaValida (l_temperatura p) (l_humedad p) (l_ith p))
           then Ret (mkResponse 422 (json_error "Lectura fuera de rango o no numérica"))
           else
             idSensor <- getOrCreateSensorByDevEui (texto devEui) ;;
             await (pool_query (InsertMedicion (Some idSensor)
                                  (l_temperatura p) (l_humedad p) (l_ith p))) ;;
             Ret (mkResponse 200 (Send "OK"))
     end)
    (fun _ => Ret (mkResponse 500 (Send "Error en base de datos"))).

(** POST /webhook, the variant that caches the last identifier
    (server.js lines 44-69 and 526-551). *)
Definition post_webhook_cache (req : webhook_req) : prog response :=
  try_catch
    (let devEui :=
       o_bien (o_bien (end_device_ids_dev_eui req) (end_device_ids_device_id req)) None in
     (if truthy devEui then sync (set_lastDevEui devEui) else Ret tt) ;;
     match decoded_payload req with
     | None => Ret (mkResponse 400 (Send "Payload invalido"))
     | Some p =>
         await (pool_query (InsertMedicion None
                              (l_temperatura p) (l_humedad p) (l_ith p))) ;;
         Ret (mkResponse 200 (Send "OK"))
     end)
    (fun _ => Ret (mkResponse 500 (Send "Error en base de datos"))).

(** POST /webhook, the earliest variant (part_000 lines 41-58). *)
Definition post_webhook_early (req : webhook_req) : prog response :=
  try_catch
    (match decoded_payload req with
     | None => Ret (mkResponse 400 (Send "Payload invalido"))
     | Some p =>
         await (pool_query (InsertMedicion None
                              (l_temperatura p) (l_humedad p) (l_ith p))) ;;
         Ret (mkResponse 200 (Send "OK"))
     end)
    (fun _ => Ret (mkResponse 500 (Send "Error en base de datos"))).

(** [rows.find(r => r.eui === dev_eui)]: strict equality of strings. *)
Definition find_eui (e : string) (rows : list (Z * string)) : option (Z * string) :=
  find (fun r => (snd r =? e)%string) rows.

(** PUT /api/sensores/actualizar, the variant located by EUI only
    (server.js lines 247-278). *)
Definition put_actualizar_eui (req : actualizar_req) : prog response :=
  try_catch
    (if negb (truthy (b_dev_eui req))
     then Ret (mkResponse 400 (json_error "dev_eui_requerido"))
     else
       let dev_eui := toUpperCase (trim (texto (b_dev_eui req))) in
       rows <- await (pool_query SelectIdEui) ;;
       match find_eui dev_eui rows with
       | None => Ret (mkResponse 404 (json_error "sensor_no_encontrado"))
       | Some row =>
           await (pool_query (UpdateCamposEui (b_modelo req) (b_area req) (b_zona req)
                                (b_sala req) (b_modo req) (b_umbral_ith req) (fst row))) ;;
           Ret (mkResponse 200 (Json [("ok", JBool true)]))
       end)
    (fun _ => Ret (mkResponse 500 (json_error "db_error"))).

(** PUT /api/sensores/actualizar, the transactional variant
    (server.js lines 633-696). *)
Definition put_actualizar (req : actualizar_req) : prog response :=
  if negb (truthyZ (b_id_sensor req)) && negb (truthy (b_dev_eui req))
  then Ret (mkResponse 400 (json_error "falta_id_o_dev_eui"))
  else
    await pool_getConnection ;;
    finally
      (try_catch
         (await conn_beginTransaction ;;
          let donde_ :=
            if truthyZ (b_id_sensor req)
            then Por_id_sensor (entero (b_id_sensor req))
            else Por_dev_eui (texto (b_dev_eui req)) in
          r1 <- await (conn_query (UpdateCampos (b_modelo req) (b_area req) (b_zona req)
                                     (b_sala req) (b_modo req) (b_umbral_ith req)
                                     (b_dev_id req) donde_)) ;;
          (if truthyZ (b_id_sensor req) && truthy (b_dev_eui req)
           then await (conn_query (UpdateVincular (texto (b_dev_eui req))
                                     (entero (b_id_sensor req)))) ;; Ret tt
           else Ret tt) ;;
          await conn_commit ;;
          Ret (mkResponse 200
                 (Json [("ok", JBool true); ("affected", JNum (affectedRows r1))])))
         (fun e =>
            await conn_rollback ;;
            if es_dup e
            then Ret (mkResponse 409 (json_error "dev_eui_duplicado"))
            else Ret (mkResponse 500 (json_error "db_error"))))
      (sync conn_release).

(** POST /api/downlink (server.js lines 181-242). *)
Definition post_downlink (req : downlink_req) : prog response :=
  try_catch
    (if negb (truthy (k_dev_eui req)) || negb (truthy (k_cmd req))
     then Ret (mkResponse 400 (json_error "faltan_campos"))
     else
       let dev_eui := toUpperCase (trim (texto (k_dev_eui req))) in
       rows <- await (pool_query (SelectAppDevice dev_eui)) ;;
       match rows with
       | [] => Ret (mkResponse 404 (json_error "sensor_no_encontrado"))
       | (app_id, device_id) :: _ =>
           if negb (truthy app_id) || negb (truthy device_id)
           then Ret (mkResponse 409 (json_error "falta_app_o_device_id"))
           else
             if negb (truthy TTN_API_KEY)
             then Ret (mkResponse 500 (json_error "ttn_api_key_no_configurada"))
             else
               let url :=
                 "https://eu1.cloud.thethings.network/api/v3/as/applications/"
                 ++ texto app_id ++ "/devices/" ++ texto device_id ++ "/down/push" in
               let frmPayloadB64 := base64 (texto (k_cmd req)) in
               r <- await (fetch (mkPeticion url ("Bearer " ++ texto TTN_API_KEY)
                                    1 frmPayloadB64 "NORMAL")) ;;
               text <- await (res_text r) ;;
               if negb (r_ok r)
               then Ret (mkResponse 502
                           (Json [("error", JStr "ttn_error");
                                  ("status", JNum (r_status r));
                                  ("detail", JStr text)]))
               else Ret (mkResponse 200 (Json [("ok", JBool true)]))
       end)
    (fun _ => Ret (mkResponse 500 (json_error "downlink_error"))).

End Handlers.

(* ===================================================================== *)
(** ** Handlers around the ingestion core *)
(* ===================================================================== *)

(** Body of POST /sensores. *)
Record sensores_req : Type := mkSensoresReq {
  s_nombre_sensor : option string;
  s_id_granja : option Z;
  s_dev_eui : option string
}.

Section Catalogo.

Local Open Scope prog_scope.

Variable toUpperCase : string -> string.

(** POST /sensores, the variant that accepts an EUI and normalizes it
    (server.js lines 422-442). *)
Definition post_sensores (req : sensores_req) : prog response :=
  try_catch
    (if negb (truthy (s_nombre_sensor req))
     then Ret (mkResponse 400 (Send "Falta nombre_sensor"))
     else
       let devEui := normalizarDevEui toUpperCase (s_dev_eui req) in
       result <- await (pool_query (InsertSensor (texto (s_nombre_sensor req))
                                      devEui (s_id_granja req))) ;;
       Ret (mkResponse 201
              (Json [("id_sensor", JNum (insertId result));
                     ("mensaje", JStr "Sensor guardado")])))
    (fun _ => Ret (mkResponse 500 (Send "Error en base de datos"))).

(** POST /sensores, the variant without EUI (server.js lines 149-166 and
    601-618, part_000 lines 102-119): the column [dev_eui] is left null. *)
Definition post_sensores_basico (req : sensores_req) : prog response :=
  try_catch
    (if negb (truthy (s_nombre_sensor req)) || negb (truthyZ (s_id_granja req))
     then Ret (mkResponse 400 (Send "Faltan datos del sensor"))
     else
       result <- await (pool_query (InsertSensor (texto (s_nombre_sensor req))
                                      None (s_id_granja req))) ;;
       Ret (mkResponse 201
              (Json [("id_sensor", JNum (insertId result));
                     ("mensaje", JStr "Sensor guardado")])))
    (fun _ => Ret (mkResponse 500 (Send "Error en base de datos"))).

End Catalogo.

(** GET /dev-eui-ultimo (server.js lines 72-75 and 554-557): a synchronous
    handler that reads the module variable [lastDevEui]. *)
Definition get_dev_eui_ultimo (w : world) : response :=
  if negb (truthy (lastDevEui w))
  then mkResponse 404 (json_error "sin_dev_eui")
  else mkResponse 200 (Json [("dev_eui", JStr (texto (lastDevEui w)))]).

(** The identifier the caching webhook keeps: [dev_eui || device_id || null]. *)
Definition identificador (req : webhook_req) : option string :=
  o_bien (o_bien (end_device_ids_dev_eui req) (end_device_ids_device_id req)) None.

(** The request has a selector the transactional update accepts. *)
Definition con_selector (req : actualizar_req) : bool :=
  truthyZ (b_id_sensor req) || truthy (b_dev_eui req).

(** The columns no update statement writes, and those the update located by
    EUI leaves alone besides: [s'] has them as [s] does. *)
Definition misma_identidad (s s' : sensor) : Prop :=
  id_sensor s' = id_sensor s /\ nombre_sensor s' = nombre_sensor s
  /\ id_granja s' = id_granja s /\ app_id s' = app_id s /\ device_id s' = device_id s.

(** The downlink the relay posts for a command to an addressed device. *)
Definition downlink_de (base64 : string -> string) (key : option string)
    (app_id device_id : option string) (cmd : option string) : peticion_ttn :=
  mkPeticion
    ("https://eu1.cloud.thethings.network/api/v3/as/applications/"
     ++ texto app_id ++ "/devices/" ++ texto device_id ++ "/down/push")
    ("Bearer " ++ texto key) 1 (base64 (texto cmd)) "NORMAL".

(** The handler answered, with one of the statuses listed. *)
Definition responde (permitidos : list Z) (o : outcome response) : Prop :=
  exists resp, o = Returned resp /\ In (status resp) permitidos.

(* ===================================================================== *)
(** ** Read-only endpoints *)
(* ===================================================================== *)

(** The statements of the read-only endpoints, indexed by the shape of
    their rows:
    - [SELECT * FROM mediciones ORDER BY id DESC LIMIT 1];
    - the same joined with [sensores] on [id_sensor], [WHERE s.dev_eui = ?];
    - the same [WHERE id_sensor = ?], the parameter being a number;
    - [SELECT dev_eui FROM sensores WHERE dev_eui IS NOT NULL AND
      dev_eui <> '' ORDER BY updated_at DESC, id_sensor DESC LIMIT 1];
    - the same [ORDER BY id_sensor DESC LIMIT 1]. *)
Inductive consulta : Type -> Type :=
| SelectUltimaMedicion : consulta (list medicion)
| SelectUltimaPorDevEui (e : string) : consulta (list medicion)
| SelectUltimaPorSensor (n : number) : consulta (list medicion)
| SelectUltimoDevEui : consulta (list string)
| SelectUltimoDevEuiPorId : consulta (list string).

(** [ORDER BY ... DESC LIMIT 1]: the row that no later row of the scan
    beats, [gana x y] telling that [x] sorts before [y]. *)
Definition primero {A} (gana : A -> A -> bool) (l : list A) : list A :=
  match
    fold_left (fun mejor x =>
                 match mejor with
                 | None => Some x
                 | Some b => if gana x b then Some x else Some b
                 end) l None
  with
  | Some b => [b]
  | None => []
  end.

Definition medicion_posterior (m1 m2 : medicion) : bool :=
  id_medicion m2 <? id_medicion m1.

(** NULL sorts below every value. *)
Definition fecha_posterior (a b : option Z) : bool :=
  match a, b with
  | Some x, Some y => y <? x
  | Some _, None => true
  | None, _ => false
  end.

Definition fecha_igual (a b : option Z) : bool :=
  match a, b with
  | Some x, Some y => x =? y
  | None, None => true
  | _, _ => false
  end.

(** [ORDER BY updated_at DESC, id_sensor DESC]. *)
Definition actualizado_despues (s1 s2 : sensor) : bool :=
  fecha_posterior (updated_at s1) (updated_at s2)
  || (fecha_igual (updated_at s1) (updated_at s2) && (id_sensor s2 <? id_sensor s1)).

Definition id_posterior (s1 s2 : sensor) : bool := id_sensor s2 <? id_sensor s1.

(** [id_sensor = ?] against a number bound as a parameter. *)
Definition id_sensor_es (q : Q) (m : medicion) : bool :=
  match m_id_sensor m with
  | Some z => Qeq_bool (inject_Z z) q
  | None => false
  end.

Section Consultas.

Variable coll_eqb : string -> string -> bool.

(** The measurement belongs to a sensor whose EUI is [e] (the join). *)
Definition medicion_de (e : string) (rows : list sensor) (m : medicion) : bool :=
  match m_id_sensor m with
  | Some z => existsb (fun s => (id_sensor s =? z) && dev_eui_es coll_eqb e s) rows
  | None => false
  end.

Definition eui_de (s : sensor) : list string :=
  match dev_eui s with Some e => [e] | None => [] end.

(** One read-only statement.  The driver writes a number parameter into the
    statement as JavaScript prints it, so an infinite or NaN parameter
    reaches the server as a bare word and is refused as an unknown column. *)
Definition exec_consulta {X} (q : consulta X) (d : database) : error + X :=
  match q in consulta X return error + X with
  | SelectUltimaMedicion => inr (primero medicion_posterior (mediciones d))
  | SelectUltimaPorDevEui e =>
      inr (primero medicion_posterior
             (filter (medicion_de e (sensores d)) (mediciones d)))
  | SelectUltimaPorSensor n =>
      match n with
      | Finite q =>
          inr (primero medicion_posterior (filter (id_sensor_es q) (mediciones d)))
      | _ => inl (ER_OTRO "ER_BAD_FIELD_ERROR")
      end
  | SelectUltimoDevEui =>
      inr (flat_map eui_de
             (primero actualizado_despues
                (filter (fun s => negb (sin_dev_eui coll_eqb s)) (sensores d))))
  | SelectUltimoDevEuiPorId =>
      inr (flat_map eui_de
             (primero id_posterior
                (filter (fun s => negb (sin_dev_eui coll_eqb s)) (sensores d))))
  end.

End Consultas.

(** A handler that only reads: it returns, throws, or awaits a statement. *)
Inductive lector (A : Type) : Type :=
| RetL (a : A)
| ThrowL (e : error)
| AwaitL {X} (q : consulta X) (k : error + X -> lector A).

Arguments RetL {A} a.
Arguments ThrowL {A} e.
Arguments AwaitL {A X} q k.

Fixpoint bindL {A B} (p : lector A) (f : A -> lector B) : lector B :=
  match p with
  | RetL a => f a
  | ThrowL e => ThrowL e
  | AwaitL q k => AwaitL q (fun r => bindL (k r) f)
  end.

(** [await pool.query(q)]. *)
Definition pool_consulta {X} (q : consulta X) : lector X :=
  AwaitL q (fun r => match r with inl e => ThrowL e | inr x => RetL x end).

Fixpoint try_catchL {A} (p : lector A) (h : error -> lector A) : lector A :=
  match p with
  | RetL a => RetL a
  | ThrowL e => h e
  | AwaitL q k => AwaitL q (fun r => try_catchL (k r) h)
  end.

Section LectorRuntime.

Variable coll_eqb : string -> string -> bool.

(** A reading handler run to its end: each statement first consumes its
    entry of [faults], as every awaited operation does. *)
Fixpoint run_lector {A} (p : lector A) (w : world) : outcome A * world :=
  match p with
  | RetL a => (Returned a, w)
  | ThrowL e => (Thrown e, w)
  | AwaitL q k =>
      match faults w with
      | Some e :: fs => run_lector (k (inl e)) (con_faults w fs)
      | None :: fs => run_lector (k (exec_consulta coll_eqb q (store w))) (con_faults w fs)
      | [] => run_lector (k (exec_consulta coll_eqb q (store w))) w
      end
  end.

End LectorRuntime.

(** What a reading endpoint sends: a row as JSON with status 200
    ([res.json(rows[0])]), or another response. *)
Inductive respuesta_fila (R : Type) : Type :=
| Fila (r : R)
| Otra (r : response).

Arguments Fila {R} r.
Arguments Otra {R} r.

(** Query string of GET /mediciones, each parameter given once at most (a
    repeated parameter, which Express hands over as an array, is left out). *)
Record mediciones_query : Type := mkMedicionesQuery {
  q_dev_eui : option string;
  q_id_sensor : option string
}.

(** Truthiness of a number. *)
Definition truthy_num (n : number) : bool :=
  match n with
  | NaN => false
  | Infinity _ => true
  | Finite q => negb (Qeq_bool q 0)
  end.

(** [e.code === 'ER_BAD_FIELD_ERROR']. *)
Definition es_bad_field (e : error) : bool :=
  match e with
  | ER_OTRO code => (code =? "ER_BAD_FIELD_ERROR")%string
  | ER_DUP_ENTRY => false
  end.

Section Lecturas.

Variable toUpperCase : string -> string.
(** [Number(s)] on a string. *)
Variable Number : string -> number.

Definition fila_o_404 (mensaje : string) (rows : list medicion)
    : lector (respuesta_fila medicion) :=
  match rows with
  | m :: _ => RetL (Fila m)
  | [] => RetL (Otra (mkResponse 404 (Send mensaje)))
  end.

(** GET /mediciones with filters (server.js lines 446-477). *)
Definition get_mediciones (query : mediciones_query) : lector (respuesta_fila medicion) :=
  try_catchL
    (let devEuiQ := normalizarDevEui toUpperCase (q_dev_eui query) in
     let idSensorQ :=
       if truthy (q_id_sensor query)
       then Some (Number (texto (q_id_sensor query))) else None in
     if truthy devEuiQ
     then bindL (pool_consulta (SelectUltimaPorDevEui (texto devEuiQ)))
            (fila_o_404 "No hay datos")
     else
       match idSensorQ with
       | Some n =>
           if truthy_num n
           then bindL (pool_consulta (SelectUltimaPorSensor n))
                  (fila_o_404 "No hay datos")
           else bindL (pool_consulta SelectUltimaMedicion) (fila_o_404 "No hay datos")
       | None => bindL (pool_consulta SelectUltimaMedicion) (fila_o_404 "No hay datos")
       end)
    (fun _ => RetL (Otra (mkResponse 500 (Send "Error en base de datos")))).

(** GET /mediciones without filters (server.js lines 169-178 and 621-630,
    part_000 lines 122-131). *)
Definition get_mediciones_ultima : lector (respuesta_fila medicion) :=
  try_catchL
    (bindL (pool_consulta SelectUltimaMedicion) (fila_o_404 "No hay datos disponibles"))
    (fun _ => RetL (Otra (mkResponse 500 (Send "Error en base de datos")))).

Definition eui_o_404 (rows : list string) : lector response :=
  match rows with
  | e :: _ => RetL (mkResponse 200 (Json [("dev_eui", JStr e)]))
  | [] => RetL (mkResponse 404 (json_error "sin_dev_eui"))
  end.

(** GET /api/dev-eui-ultimo (server.js lines 77-104). *)
Definition get_api_dev_eui_ultimo : lector response :=
  try_catchL
    (bindL (pool_consulta SelectUltimoDevEui) eui_o_404)
    (fun e =>
       if es_bad_field e
       then bindL (pool_consulta SelectUltimoDevEuiPorId) eui_o_404
       else RetL (mkResponse 500 (json_error "db_error"))).

End Lecturas.

(* ===================================================================== *)
(** ** Concrete data for the examples *)
(* ===================================================================== *)

(** [trim] and SQL [TRIM] on text with no white space at its ends. *)
Definition sin_espacios (s : string) : string := s.

(** A sensor created by hand, without EUI, and a placeholder created by the
    webhook, never linked to the network server. *)
Definition sensor_5 : sensor :=
  mkSensor 5 "Nave 1" (Some 1) None (Some "DHT22") (Some "norte") (Some "Z1")
    (Some "S1") (Some "auto") (Some 72) None None None None.

Definition sensor_6 : sensor :=
  mkSensor 6 "TTN-AABBCCDDEEFF0011" None (Some "AABBCCDDEEFF0011") None None None
    None (Some "auto") (Some 70) None None None None.

Definition db_ejemplo : database := mkDatabase [sensor_5; sensor_6] [] 7 1.

(** A world where nothing is made to fail. *)
Definition mundo (d : database) : world :=
  mkWorld d None 0 1000 [] [] (mkRespuestaTtn true 200 "") None.


(** [{id_sensor: 6, dev_eui: "0011223344556677"}]: sensor 6 has an EUI. *)
Definition req_otro_eui : actualizar_req :=
  mkActualizar (Some 6) (Some "0011223344556677") None None None None None None None.

(** [{id_sensor: 5, dev_eui: "0011223344556677"}]: sensor 5 has none. *)
Definition req_vincular : actualizar_req :=
  mkActualizar (Some 5) (Some "0011223344556677") None None None None None (Some 72) None.

(** [{id_sensor: 5, dev_eui: "FFEEDDCCBBAA9988"}]: a different EUI. *)
Definition req_revincular : actualizar_req :=
  mkActualizar (Some 5) (Some "FFEEDDCCBBAA9988") None None None None None (Some 72) None.

(** [{id_sensor: 5, modo: "manual"}]. *)
Definition req_modo_manual : actualizar_req :=
  mkActualizar (Some 5) None None None None None (Some "manual") None None.


(** An uplink of an unseen device with a plausible reading, and one with a
    temperature below the lower bound. *)
Definition uplink_nuevo : webhook_req :=
  mkWebhook (Some "00:11:22:33:44:55:66:77") None
    (Some (mkLectura (num (25 # 1)) (num (60 # 1)) (num (70 # 1)))).

Definition uplink_fuera_de_rango : webhook_req :=
  mkWebhook (Some "00:11:22:33:44:55:66:77") None
    (Some (mkLectura (num (-41 # 1)) (num (50 # 1)) (num (50 # 1)))).

(** [{dev_eui: "aabbccddeeff0011", cmd: "ON"}]. *)
Definition req_downlink : downlink_req :=
  mkDownlink (Some "aabbccddeeff0011") (Some "ON").

(** A sensor linked to the network server, with its addressing pair. *)
Definition sensor_7 : sensor :=
  mkSensor 7 "Nave 2" (Some 1) (Some "70B3D57ED0000007") (Some "DHT22") None None
    None (Some "auto") (Some 72) (Some "nodo-7") (Some "granja-app") (Some "nodo-7")
    (Some 900).

(** The example tables with that sensor and two stored measurements. *)
Definition db_con_medidas : database :=
  mkDatabase [sensor_5; sensor_6; sensor_7]
    [mkMedicion 1 (Some 6) (num (20 # 1)) (num (55 # 1)) (num (66 # 1));
     mkMedicion 2 (Some 7) (num (22 # 1)) (num (58 # 1)) (num (69 # 1))] 8 3.


(** [{id_sensor: 99, modo: "manual"}]: no sensor has that id. *)
Definition req_desconocido : actualizar_req :=
  mkActualizar (Some 99) None None None None None (Some "manual") None None.

(** [{nombre_sensor: "Nave 3", id_granja: 1, dev_eui: "00-11-22-33-44-55-66-77"}]
    and the same registration with the EUI of sensor 6. *)
Definition req_alta : sensores_req :=
  mkSensoresReq (Some "Nave 3") (Some 1) (Some "00-11-22-33-44-55-66-77").

Definition req_alta_repetida : sensores_req :=
  mkSensoresReq (Some "Nave 3") (Some 1) (Some "aa:bb:cc:dd:ee:ff:00:11").

(** An uplink of sensor 6. *)
Definition uplink_6 : webhook_req :=
  mkWebhook (Some "AA-BB-CC-DD-EE-FF-00-11") None
    (Some (mkLectura (num (25 # 1)) (num (60 # 1)) (num (70 # 1)))).

(** [Number] on the texts the examples use: a string of decimal digits is
    its value (the empty string is 0), and text with any other character in
    it stands for text that is no numeral, which is NaN. *)
Fixpoint digitos (acc : Z) (s : string) : option Z :=
  match s with
  | EmptyString => Some acc
  | String c r =>
      let n := Z.of_nat (nat_of_ascii c) in
      if (48 <=? n) && (n <=? 57) then digitos (10 * acc + (n - 48)) r else None
  end.

Definition numero_de_digitos (s : string) : number :=
  match digitos 0 s with
  | Some z => Finite (inject_Z z)
  | None => NaN
  end.

(* ===================================================================== *)
(** * Properties *)
(* ===================================================================== *)

(** ** Reading validator *)

Lemma Qltb_true_iff (a b : Q) : Qltb a b = true <-> (a < b)%Q.
Proof.
  unfold Qltb. rewrite Qlt_alt.
  destruct (a ?= b)%Q; split; intro H; congruence.
Qed.

Lemma Qltb_false_iff (a b : Q) : Qltb a b = false <-> (b <= a)%Q.
Proof.
  split; intro H.
  - apply Qnot_lt_le. intro L. apply Qltb_true_iff in L. congruence.
  - destruct (Qltb a b) eqn:E; [|reflexivity].
    apply Qltb_true_iff in E. exfalso. exact (Qle_not_lt _ _ H E).
Qed.

Lemma guarda_pasa (lo hi : Q) (v : value) :
  negb (typeof v =? "number")%string || js_lt v lo || js_gt v hi = false
  <-> pasa lo hi v.
Proof.
  unfold pasa, in_range. split.
  - intro H. apply orb_false_iff in H as [H Hgt].
    apply orb_false_iff in H as [Hty Hlt].
    destruct v as [| |b|n|s|]; simpl in Hty; try discriminate.
    destruct n as [|neg|q]; simpl in *.
    + left; reflexivity.
    + destruct neg; discriminate.
    + right. exists q. repeat split.
      * now apply Qltb_false_iff.
      * now apply Qltb_false_iff.
  - intros [H | [q [-> [Hlo Hhi]]]].
    + destruct v as [| |b|n|s|]; try discriminate.
      destruct n; try discriminate. reflexivity.
    + simpl. apply Qltb_false_iff in Hlo, Hhi. now rewrite Hlo, Hhi.
Qed.

(** The validator accepts exactly the triples whose three values each pass
    their guard. *)
Lemma lecturaValida_pasa (t h i : value) :
  lecturaValida t h i = true
  <-> pasa (-40 # 1) (85 # 1) t /\ pasa (0 # 1) (100 # 1) h /\ pasa (0 # 1) (120 # 1) i.
Proof.
  unfold lecturaValida.
  rewrite <- !guarda_pasa.
  destruct (negb (typeof t =? "number")%string || js_lt t (-40 # 1) || js_gt t (85 # 1));
  destruct (negb (typeof h =? "number")%string || js_lt h (0 # 1) || js_gt h (100 # 1));
  destruct (negb (typeof i =? "number")%string || js_lt i (0 # 1) || js_gt i (120 # 1));
  intuition congruence.
Qed.


(** On values that are not NaN (every value [JSON.parse] can produce) the
    validator accepts exactly the numeric triples within the bounds. *)
Lemma lecturaValida_sin_NaN (t h i : value) :
  is_NaN t = false -> is_NaN h = false -> is_NaN i = false ->
  (lecturaValida t h i = true
   <-> in_range (-40 # 1) (85 # 1) t /\ in_range (0 # 1) (100 # 1) h
       /\ in_range (0 # 1) (120 # 1) i).
Proof.
  intros Ht Hh Hi. rewrite lecturaValida_pasa. unfold pasa.
  rewrite Ht, Hh, Hi. intuition discriminate.
Qed.

Example lectura_25_60_70 : lecturaValida (num (25 # 1)) (num (60 # 1)) (num (70 # 1)) = true.
Proof. reflexivity. Qed.

Example lectura_frontera : lecturaValida (num (85 # 1)) (num (100 # 1)) (num (120 # 1)) = true.
Proof. reflexivity. Qed.

Example lectura_menos_41 : lecturaValida (num (-41 # 1)) (num (50 # 1)) (num (50 # 1)) = false.
Proof. reflexivity. Qed.

Example lectura_hot : lecturaValida (VString "hot") (num (50 # 1)) (num (50 # 1)) = false.
Proof. reflexivity. Qed.

Example lectura_85_1 : lecturaValida (num double_85_1) (num (100 # 1)) (num (120 # 1)) = false.
Proof. reflexivity. Qed.

Example lectura_infinita :
  lecturaValida (VNumber (Infinity false)) (num (50 # 1)) (num (50 # 1)) = false.
Proof. reflexivity. Qed.


(** ** EUI normalizer *)

Lemma es_hex_mayuscula (c : ascii) : es_hex c = true -> mayuscula c = c.
Proof.
  unfold es_hex, mayuscula. intro H.
  destruct ((97 <=? nat_of_ascii c)%nat && (nat_of_ascii c <=? 122)%nat) eqn:E;
    [|reflexivity].
  apply andb_true_iff in E as [E1 E2].
  apply Nat.leb_le in E1. apply Nat.leb_le in E2.
  apply orb_true_iff in H as [H | H]; apply andb_true_iff in H as [H1 H2];
    apply Nat.leb_le in H1; apply Nat.leb_le in H2; lia.
Qed.

Lemma es_hex_ascii (c : ascii) : es_hex c = true -> (nat_of_ascii c <? 128)%nat = true.
Proof.
  unfold es_hex. intro H. apply Nat.ltb_lt.
  apply orb_true_iff in H as [H | H]; apply andb_true_iff in H as [H1 H2];
    apply Nat.leb_le in H1; apply Nat.leb_le in H2; lia.
Qed.

Lemma solo_hex_quitar (s : string) : solo_hex (quitar_no_hex s) = true.
Proof.
  induction s as [|c r IH]; simpl; [reflexivity|].
  destruct (es_hex c) eqn:E; simpl; [rewrite E|]; exact IH.
Qed.

Lemma quitar_solo_hex (s : string) : solo_hex s = true -> quitar_no_hex s = s.
Proof.
  induction s as [|c r IH]; simpl; [reflexivity|].
  intro H. apply andb_true_iff in H as [Hc Hr].
  rewrite Hc. now rewrite IH.
Qed.

Lemma solo_hex_es_ascii (s : string) : solo_hex s = true -> es_ascii s = true.
Proof.
  induction s as [|c r IH]; simpl; [reflexivity|].
  intro H. apply andb_true_iff in H as [Hc Hr].
  now rewrite (es_hex_ascii _ Hc), IH.
Qed.

Lemma solo_hex_mayusculas (s : string) : solo_hex s = true -> mayusculas s = s.
Proof.
  induction s as [|c r IH]; simpl; [reflexivity|].
  intro H. apply andb_true_iff in H as [Hc Hr].
  now rewrite (es_hex_mayuscula _ Hc), IH.
Qed.

Section NormalizerFacts.

Variable toUpperCase : string -> string.
Hypothesis upper_ascii : upper_on_ascii toUpperCase.

Lemma toUpperCase_solo_hex (s : string) : solo_hex s = true -> toUpperCase s = s.
Proof.
  intro H. rewrite upper_ascii by now apply solo_hex_es_ascii.
  now apply solo_hex_mayusculas.
Qed.

(** A canonical value (non-empty, upper-case hexadecimal) is a fixed point. *)
Lemma normalizarDevEui_canonico (s : string) :
  solo_hex s = true -> s <> "" -> normalizarDevEui toUpperCase (Some s) = Some s.
Proof.
  intros H Hne. unfold normalizarDevEui.
  destruct s as [|c r]; [congruence|]. simpl truthy. cbv iota beta. simpl negb.
  cbv iota. now rewrite toUpperCase_solo_hex, quitar_solo_hex.
Qed.

(** C6 (as amended): a second pass changes nothing, except that an empty
    result becomes null; a result is an upper-case hexadecimal string;
    absent and empty input give null; any other string gives its
    upper-case hexadecimal form, which is the empty string when nothing of
    it is left; and the example of the specification. *)
Theorem normalizarDevEui_idempotente :
  (forall x,
     normalizarDevEui toUpperCase (normalizarDevEui toUpperCase x)
     = if truthy (normalizarDevEui toUpperCase x)
       then normalizarDevEui toUpperCase x else None)
  /\ (forall x s, normalizarDevEui toUpperCase x = Some s -> solo_hex s = true)
  /\ normalizarDevEui toUpperCase None = None
  /\ normalizarDevEui toUpperCase (Some "") = None
  /\ (forall s, s <> "" ->
        normalizarDevEui toUpperCase (Some s) = Some (quitar_no_hex (toUpperCase s)))
  /\ (forall s, quitar_no_hex (toUpperCase s) = "" ->
        truthy (normalizarDevEui toUpperCase (Some s)) = false)
  /\ normalizarDevEui toUpperCase (Some "70:b3:d5:7e:d0:03:ab:cd")
     = Some "70B3D57ED003ABCD".
Proof.
  assert (Hhex : forall x s, normalizarDevEui toUpperCase x = Some s -> solo_hex s = true).
  { intros x s. unfold normalizarDevEui.
    destruct (negb (truthy x)); [discriminate|].
    destruct x; [|discriminate].
    intro E. injection E as <-. apply solo_hex_quitar. }
  split; [|split; [exact Hhex|split; [reflexivity|split; [reflexivity|split; [|split]]]]].
  - intro x. destruct (normalizarDevEui toUpperCase x) as [s|] eqn:E; [|reflexivity].
    destruct s as [|c r]; [reflexivity|].
    simpl truthy. cbv iota. apply normalizarDevEui_canonico; [|discriminate].
    exact (Hhex _ _ E).
  - intros s Hne. destruct s as [|c r]; [congruence|reflexivity].
  - intros s E. unfold normalizarDevEui.
    destruct (negb (truthy (Some s))); [reflexivity|]. now rewrite E.
  - unfold normalizarDevEui. simpl truthy. cbv iota beta. simpl negb. cbv iota.
    rewrite upper_ascii by reflexivity. reflexivity.
Qed.

End NormalizerFacts.

Lemma upper_on_ascii_mayusculas : upper_on_ascii mayusculas.
Proof. intros s _. reflexivity. Qed.

(** C6, witness: the theorem at the ASCII upper-casing. *)
Lemma normalizarDevEui_idempotente_witness :
  upper_on_ascii mayusculas
  /\ normalizarDevEui mayusculas (normalizarDevEui mayusculas (Some "70:b3:d5:7e:d0:03:ab:cd"))
     = normalizarDevEui mayusculas (Some "70:b3:d5:7e:d0:03:ab:cd").
Proof.
  split.
  - exact upper_on_ascii_mayusculas.
  - rewrite (proj1 (normalizarDevEui_idempotente upper_on_ascii_mayusculas)).
    reflexivity.
Defined.

(** C6, counterexample: [":"] normalizes to the empty string, and the empty
    string normalizes to null. *)
Lemma normalizarDevEui_no_idempotente :
  normalizarDevEui mayusculas (Some ":") = Some ""
  /\ normalizarDevEui mayusculas (normalizarDevEui mayusculas (Some ":")) = None
  /\ normalizarDevEui mayusculas (normalizarDevEui mayusculas (Some ":"))
     <> normalizarDevEui mayusculas (Some ":").
Proof.
  repeat split. discriminate.
Qed.

(** ** Running programs *)

Section RunFacts.

Variable coll_eqb : string -> string -> bool.
Variable UPPER : string -> string.
Variable TRIM : string -> string.

Lemma exec_eq {X} (o : op X) (w : world) :
  exec coll_eqb UPPER TRIM o w
  = if es_await o then
      match faults w with
      | Some e :: fs => (inl e, con_faults w fs)
      | None :: fs => efecto coll_eqb UPPER TRIM o (con_faults w fs)
      | [] => efecto coll_eqb UPPER TRIM o w
      end
    else efecto coll_eqb UPPER TRIM o w.
Proof. reflexivity. Qed.

#[local] Abbreviation run := (run coll_eqb UPPER TRIM).
#[local] Abbreviation exec := (exec coll_eqb UPPER TRIM).
#[local] Abbreviation efecto := (efecto coll_eqb UPPER TRIM).

Lemma run_bind {A B} (p : prog A) (f : A -> prog B) (w : world) :
  run (bind p f) w
  = match run p w with
    | (Returned a, w') => run (f a) w'
    | (Thrown e, w') => (Thrown e, w')
    end.
Proof.
  revert w. induction p as [a|e|X o k IH]; intro w; simpl; try reflexivity.
  destruct (exec o w) as [r w']. apply IH.
Qed.

Lemma run_await {X} (o : op X) (w : world) :
  run (await o) w
  = match exec o w with
    | (inr x, w') => (Returned x, w')
    | (inl e, w') => (Thrown e, w')
    end.
Proof. simpl. destruct (exec o w) as [[e|x] w']; reflexivity. Qed.

Lemma run_try_catch {A} (p : prog A) (h : error -> prog A) (w : world) :
  run (try_catch p h) w
  = match run p w with
    | (Returned a, w') => (Returned a, w')
    | (Thrown e, w') => run (h e) w'
    end.
Proof.
  revert w. induction p as [a|e|X o k IH]; intro w; simpl; try reflexivity.
  destruct (exec o w) as [r w']. apply IH.
Qed.

Lemma run_finally {A} (p : prog A) (f : prog unit) (w : world) :
  run (finally p f) w
  = match run p w with
    | (o, w') =>
        match run f w' with
        | (Returned _, w'') => (o, w'')
        | (Thrown e, w'') => (Thrown e, w'')
        end
    end.
Proof.
  revert w. induction p as [a|e|X o k IH]; intro w; simpl.
  - rewrite run_bind. destruct (run f w) as [[u|e] w']; reflexivity.
  - rewrite run_bind. destruct (run f w) as [[u|e'] w']; reflexivity.
  - destruct (exec o w) as [r w']. apply IH.
Qed.

Lemma con_store_store (w : world) : con_store w (store w) = w.
Proof. destruct w; reflexivity. Qed.

(** A statement sent through the pool when nothing is made to fail. *)
Lemma exec_pool_query {X} (q : sql X) (w : world) :
  faults w = [] ->
  exec (pool_query q) w
  = match sql_en coll_eqb UPPER TRIM (now w) q (store w) with
    | inl e => (inl e, w)
    | inr (x, d) => (inr x, con_store w d)
    end.
Proof. intro H. rewrite exec_eq, H. reflexivity. Qed.

End RunFacts.

Arguments bind : simpl never.
Arguments await : simpl never.
Arguments try_catch : simpl never.
Arguments finally : simpl never.
Arguments exec : simpl never.
Arguments sql_en : simpl never.

(** ** Device registry: resolve-or-create *)

Section Registry.

Variable coll_eqb : string -> string -> bool.
Variable UPPER : string -> string.
Variable TRIM : string -> string.
Hypothesis coll_refl : forall s, coll_eqb s s = true.

#[local] Abbreviation run := (run coll_eqb UPPER TRIM).

Lemma ocupado_None (e : string) (rows : list sensor) :
  ocupado coll_eqb e None rows = existsb (dev_eui_es coll_eqb e) rows.
Proof.
  induction rows as [|s r IH]; simpl; [reflexivity|].
  now rewrite andb_true_r, <- IH.
Qed.

Lemma existsb_filter_nil {A} (f : A -> bool) (l : list A) :
  filter f l = [] -> existsb f l = false.
Proof.
  induction l as [|a r IH]; simpl; [reflexivity|].
  destruct (f a); [discriminate|]. exact IH.
Qed.

Lemma filter_nuevo (e : string) (rows : list sensor) (s : sensor) :
  filter (dev_eui_es coll_eqb e) rows = [] -> dev_eui s = Some e ->
  filter (dev_eui_es coll_eqb e) (rows ++ [s]) = [s].
Proof.
  intros Hn Hs. rewrite filter_app, Hn. simpl.
  unfold dev_eui_es. now rewrite Hs, coll_refl.
Qed.

(** C3: when a row already carries the EUI, the call returns the id of
    the first such row and changes nothing; otherwise it appends exactly one
    row, named [TTN-<EUI>], with that EUI and no farm, returns its id, and a
    second call returns the same id and changes nothing. *)
Theorem getOrCreateSensorByDevEui_spec (e : string) (w : world) :
  faults w = [] ->
  match filter (dev_eui_es coll_eqb e) (sensores (store w)) with
  | s :: _ =>
      run (getOrCreateSensorByDevEui e) w = (Returned (id_sensor s), w)
  | [] =>
      exists w',
        run (getOrCreateSensorByDevEui e) w = (Returned (auto_sensor (store w)), w')
        /\ sensores (store w')
           = (sensores (store w)
              ++ [nuevo_sensor (auto_sensor (store w)) ("TTN-" ++ e) (Some e) None])%list
        /\ mediciones (store w') = mediciones (store w)
        /\ run (getOrCreateSensorByDevEui e) w' = (Returned (auto_sensor (store w)), w')
  end.
Proof.
  intro Hf.
  destruct (filter (dev_eui_es coll_eqb e) (sensores (store w))) as [|s r] eqn:E.
  - exists (con_store w
              (mkDatabase
                 (sensores (store w)
                  ++ [nuevo_sensor (auto_sensor (store w)) ("TTN-" ++ e) (Some e) None])
                 (mediciones (store w)) (auto_sensor (store w) + 1)
                 (auto_medicion (store w)))).
    unfold getOrCreateSensorByDevEui.
    split; [|split; [reflexivity|split; [reflexivity|]]].
    + rewrite run_bind, run_await, exec_pool_query by exact Hf.
      unfold sql_en. cbn. rewrite E, con_store_store. cbn.
      rewrite run_bind, run_await, exec_pool_query by exact Hf.
      unfold sql_en. cbn. rewrite ocupado_None, (existsb_filter_nil _ _ E). reflexivity.
    + rewrite run_bind, run_await, exec_pool_query by exact Hf.
      unfold sql_en. cbn. rewrite filter_nuevo by (exact E || reflexivity). reflexivity.
  - unfold getOrCreateSensorByDevEui.
    rewrite run_bind, run_await, exec_pool_query by exact Hf.
    unfold sql_en. cbn. rewrite E, con_store_store. reflexivity.
Qed.

End Registry.

(** ** Metadata update *)

(** Symbolic execution of a handler: unfold one construct of the program,
    or split on what the next awaited operation finds in [faults], on the
    outcome of a statement, or on a test of the handler. *)
Ltac reducir :=
  cbn [run es_await efecto faults store tx leased now sent ttn lastDevEui
       con_store con_tx con_leased con_faults con_sent con_lastDevEui
       fst snd es_dup status cuerpo pred] in *.

Ltac paso :=
  first
    [ rewrite run_bind
    | rewrite run_await
    | rewrite run_try_catch
    | rewrite run_finally
    | rewrite exec_eq
    | match goal with
      | |- context [match ?f with [] => _ | _ :: _ => _ end] =>
          is_var f; destruct f as [|[?|] ?]
      | |- context [match sql_en ?c ?u ?t ?n ?q ?d with _ => _ end] =>
          let E := fresh "Esql" in
          destruct (sql_en c u t n q d) as [?|[? ?]] eqn:E
      | |- context [if ?b then _ else _] =>
          let E := fresh "Eif" in destruct b eqn:E
      end ];
  reducir.

Section Actualizar.

Variable coll_eqb : string -> string -> bool.
Variable UPPER : string -> string.
Variable TRIM : string -> string.

#[local] Abbreviation run := (run coll_eqb UPPER TRIM).

Lemma put_actualizar_casos (req : actualizar_req) (w : world) :
  tx w = None ->
  (store (snd (run (put_actualizar req) w)) = store w
   /\ forall resp, fst (run (put_actualizar req) w) = Returned resp -> status resp <> 200)
  \/ (exists h1 d1,
        sql_en coll_eqb UPPER TRIM (now w) (stmt_campos req) (store w) = inr (h1, d1)
        /\ fst (run (put_actualizar req) w)
           = Returned (mkResponse 200
                         (Json [("ok", JBool true); ("affected", JNum (affectedRows h1))]))
        /\ if ambos req
           then exists h2 d2,
                  sql_en coll_eqb UPPER TRIM (now w) (stmt_vincular req) d1 = inr (h2, d2)
                  /\ store (snd (run (put_actualizar req) w)) = d2
           else store (snd (run (put_actualizar req) w)) = d1).
Proof.
  intro Htx. unfold put_actualizar.
  destruct (negb (truthyZ (b_id_sensor req)) && negb (truthy (b_dev_eui req))) eqn:Hsel.
  { left. split; [reflexivity|]. intros resp H. injection H as <-. discriminate. }
  fold (seleccion req). fold (stmt_campos req). fold (stmt_vincular req). fold (ambos req).
  destruct w as [st t l n f s tt last]. cbn [tx] in Htx. subst t.
  unfold sync.
  repeat paso.
  all: try (left; split;
            [reflexivity
            |intros resp H; try discriminate H; injection H as <-; discriminate]).
  all: right; do 2 eexists; split; [reflexivity|]; split; [reflexivity|].
  all: try reflexivity.
  all: do 2 eexists; split; [eassumption|reflexivity].
Qed.

Lemma Forall2_map_puntual {A} (R : A -> A -> Prop) (g : A -> A) (l : list A) :
  (forall a, In a l -> R a (g a)) -> Forall2 R l (map g l).
Proof.
  induction l as [|a r IH]; intro H; simpl; constructor.
  - apply H. now left.
  - apply IH. intros b Hb. apply H. now right.
Qed.

Lemma actualizar_dos (c1 c2 : sensor -> bool) (f1 f2 : sensor -> sensor)
    (rows : list sensor) :
  actualizar c2 f2 (actualizar c1 f1 rows)
  = map (fun s => if c2 (if c1 s then f1 s else s)
                  then f2 (if c1 s then f1 s else s)
                  else if c1 s then f1 s else s) rows.
Proof. unfold actualizar. now rewrite map_map. Qed.

(** What the two statements of the transactional update leave behind. *)
Lemma stmt_campos_ok (req : actualizar_req) (n : Z) (d : database) :
  sql_en coll_eqb UPPER TRIM n (stmt_campos req) d
  = inr (mkHeader 0 (cuenta (cumple coll_eqb (seleccion req)) (sensores d)),
         con_sensores d
           (actualizar (cumple coll_eqb (seleccion req)) (campos_de req n) (sensores d))).
Proof. reflexivity. Qed.

Lemma stmt_vincular_ok (req : actualizar_req) (n : Z) (d : database)
    (h : ResultSetHeader) (d' : database) :
  sql_en coll_eqb UPPER TRIM n (stmt_vincular req) d = inr (h, d') ->
  d' = con_sensores d
         (actualizar (sin_vincular coll_eqb req) (set_dev_eui (texto (b_dev_eui req)))
            (sensores d)).
Proof.
  unfold sql_en, stmt_vincular. cbn [exec_sql].
  fold (sin_vincular coll_eqb req).
  destruct (existsb _ _ && _); [discriminate|].
  intro H. now injection H as _ <-.
Qed.

(** The field update touches neither the id nor the EUI of a row. *)
Lemma campos_de_id (req : actualizar_req) (n : Z) (c : sensor -> bool) (s : sensor) :
  id_sensor (if c s then campos_de req n s else s) = id_sensor s
  /\ dev_eui (if c s then campos_de req n s else s) = dev_eui s.
Proof. destruct (c s); split; reflexivity. Qed.



Lemma respeta_dev_eui_refl (req : actualizar_req) (s s' : sensor) :
  id_sensor s' = id_sensor s -> dev_eui s' = dev_eui s ->
  respeta_dev_eui coll_eqb req s s'.
Proof. intros Hid He. split; [exact Hid|]. split; [intros _; exact He|now left]. Qed.

(** C2: whatever the call does and however it ends, every committed row
    keeps its id; a row whose EUI is populated keeps that EUI; and a row
    whose EUI differs afterwards is the row of the id sent, had a null or
    empty EUI, and now carries the EUI sent together with that id. *)
Theorem put_actualizar_no_pisa_dev_eui (req : actualizar_req) (w : world) :
  tx w = None ->
  Forall2 (respeta_dev_eui coll_eqb req)
    (sensores (store w))
    (sensores (store (snd (run (put_actualizar req) w)))).
Proof.
  intro Htx.
  destruct (put_actualizar_casos req w Htx) as [[-> _] | [h1 [d1 [E1 [_ Hst]]]]].
  - rewrite <- (map_id (sensores (store w))) at 2. apply Forall2_map_puntual.
    intros s _. now apply respeta_dev_eui_refl.
  - rewrite stmt_campos_ok in E1. injection E1 as _ <-.
    destruct (ambos req) eqn:Hab.
    + destruct Hst as [h2 [d2 [E2 ->]]].
      apply stmt_vincular_ok in E2. subst d2.
      cbn [sensores con_sensores]. rewrite actualizar_dos.
      apply Forall2_map_puntual. intros s _.
      set (c := cumple coll_eqb (seleccion req)).
      destruct (campos_de_id req (now w) c s) as [Hid Heui].
      assert (Hsv : sin_vincular coll_eqb req (if c s then campos_de req (now w) s else s)
                    = sin_vincular coll_eqb req s).
      { unfold sin_vincular, sin_dev_eui. now rewrite Hid, Heui. }
      rewrite Hsv.
      destruct (sin_vincular coll_eqb req s) eqn:Hs.
      * unfold sin_vincular in Hs. apply andb_true_iff in Hs as [Hs1 Hs2].
        apply Z.eqb_eq in Hs1.
        split; [exact Hid|]. split; [intro H; congruence|].
        right. repeat split; assumption.
      * now apply respeta_dev_eui_refl.
    + rewrite Hst. cbn [sensores con_sensores].
      apply Forall2_map_puntual. intros s _.
      destruct (campos_de_id req (now w) (cumple coll_eqb (seleccion req)) s) as [Hid Heui].
      now apply respeta_dev_eui_refl.
Qed.






Section Merge.

Variable toUpperCase : string -> string.
Variable trim : string -> string.


End Merge.

End Actualizar.

(** ** Two first-sight uplinks racing on one EUI *)

(** Evaluation of interleaved handlers, statements left folded. *)
Ltac evaluar :=
  cbv beta iota zeta delta
    [concurrente event_loop terminar turno sincrono poner nth_error
     run bind await sync try_catch finally exec efecto es_await
     faults store tx leased now sent ttn lastDevEui
     con_store con_tx con_leased con_faults con_sent con_lastDevEui
     fst snd negb andb orb] in *.

Section Carrera.

Variable coll_eqb : string -> string -> bool.
Variable UPPER : string -> string.
Variable TRIM : string -> string.
Variable toUpperCase : string -> string.
Hypothesis coll_refl : forall s, coll_eqb s s = true.

#[local] Abbreviation run := (run coll_eqb UPPER TRIM).
#[local] Abbreviation concurrente := (concurrente coll_eqb UPPER TRIM).

(** C8 (as amended): two first-sight uplinks for the same unseen EUI, the
    second one registering the sensor between the lookup and the insert of
    the first.  The first caller's insert is refused as a duplicate;
    [getOrCreateSensorByDevEui] lets the error through without a second
    lookup, the webhook answers 500 and stores nothing for that uplink.  One
    sensor row is created, and only the second uplink's measurement.  The
    first uplink sent again is then stored. *)
Theorem carrera_primer_avistamiento (e rawA rawB : string) (idA idB : option string)
    (pA pB : lectura) (w : world) :
  faults w = [] ->
  filter (dev_eui_es coll_eqb e) (sensores (store w)) = [] ->
  normalizarDevEui toUpperCase (Some rawA) = Some e ->
  normalizarDevEui toUpperCase (Some rawB) = Some e ->
  truthy (Some e) = true ->
  lecturaValida (l_temperatura pA) (l_humedad pA) (l_ith pA) = true ->
  lecturaValida (l_temperatura pB) (l_humedad pB) (l_ith pB) = true ->
  fst (concurrente [0; 1; 1; 0]%nat
         [getOrCreateSensorByDevEui e; getOrCreateSensorByDevEui e] w)
  = [Thrown ER_DUP_ENTRY; Returned (auto_sensor (store w))]
  /\ fst (concurrente [0; 1; 1; 0]%nat
            [post_webhook toUpperCase (mkWebhook (Some rawA) idA (Some pA));
             post_webhook toUpperCase (mkWebhook (Some rawB) idB (Some pB))] w)
     = [Returned (mkResponse 500 (Send "Error en base de datos"));
        Returned (mkResponse 200 (Send "OK"))]
  /\ sensores (store (snd (concurrente [0; 1; 1; 0]%nat
            [post_webhook toUpperCase (mkWebhook (Some rawA) idA (Some pA));
             post_webhook toUpperCase (mkWebhook (Some rawB) idB (Some pB))] w)))
     = (sensores (store w)
        ++ [nuevo_sensor (auto_sensor (store w)) ("TTN-" ++ e) (Some e) None])%list
  /\ mediciones (store (snd (concurrente [0; 1; 1; 0]%nat
            [post_webhook toUpperCase (mkWebhook (Some rawA) idA (Some pA));
             post_webhook toUpperCase (mkWebhook (Some rawB) idB (Some pB))] w)))
     = (mediciones (store w)
        ++ [mkMedicion (auto_medicion (store w)) (Some (auto_sensor (store w)))
              (l_temperatura pB) (l_humedad pB) (l_ith pB)])%list
  /\ fst (run (post_webhook toUpperCase (mkWebhook (Some rawA) idA (Some pA)))
            (snd (concurrente [0; 1; 1; 0]%nat
               [post_webhook toUpperCase (mkWebhook (Some rawA) idA (Some pA));
                post_webhook toUpperCase (mkWebhook (Some rawB) idB (Some pB))] w)))
     = Returned (mkResponse 200 (Send "OK")).
Proof.
  intros Hf Hn HA HB He HvA HvB.
  destruct w as [st t l n f s tt last]. cbn [faults store] in *. subst f.
  assert (Hdup : ocupado coll_eqb e None
                   (sensores st
                    ++ [nuevo_sensor (auto_sensor st) ("TTN-" ++ e) (Some e) None])
                 = true).
  { rewrite ocupado_None, existsb_app. cbn [existsb dev_eui_es dev_eui nuevo_sensor].
    now rewrite coll_refl, orb_true_r. }
  split.
  - unfold getOrCreateSensorByDevEui.
    evaluar. unfold sql_en. cbn [exec_sql]. rewrite Hn. cbn [map].
    evaluar. unfold sql_en. cbn [exec_sql]. rewrite Hn. cbn [map].
    evaluar. unfold sql_en. cbn [exec_sql].
    rewrite ocupado_None, (existsb_filter_nil _ _ Hn).
    evaluar. unfold sql_en. cbn [exec_sql sensores].
    rewrite Hdup. reflexivity.
  - unfold post_webhook, getOrCreateSensorByDevEui.
    cbn [decoded_payload end_device_ids_dev_eui].
    rewrite HA, HB, He, HvA, HvB. cbn [negb texto].
    evaluar. unfold sql_en. cbn [exec_sql]. rewrite Hn. cbn [map].
    evaluar. unfold sql_en. cbn [exec_sql]. rewrite Hn. cbn [map].
    evaluar. unfold sql_en. cbn [exec_sql].
    rewrite ocupado_None, (existsb_filter_nil _ _ Hn).
    evaluar. unfold sql_en. cbn [exec_sql sensores].
    rewrite Hdup.
    evaluar. unfold sql_en. cbn [exec_sql]. evaluar.
    cbn [sensores mediciones auto_sensor auto_medicion insertId].
    split; [reflexivity|]. split; [reflexivity|]. split; [reflexivity|].
    unfold sql_en. cbn [exec_sql sensores].
    rewrite filter_nuevo by (assumption || reflexivity). cbn [map].
    evaluar. unfold sql_en. cbn [exec_sql]. reflexivity.
Qed.

End Carrera.

(** ** Webhook ingestion *)

Section Webhook.

Variable coll_eqb : string -> string -> bool.
Variable UPPER : string -> string.
Variable TRIM : string -> string.
Variable toUpperCase : string -> string.
Hypothesis coll_refl : forall s, coll_eqb s s = true.

#[local] Abbreviation run := (run coll_eqb UPPER TRIM).

Lemma hd_filter_In {A} (f : A -> bool) (l : list A) (a : A) (r : list A) :
  filter f l = a :: r -> In a l /\ f a = true.
Proof.
  intro H. apply filter_In. rewrite H. now left.
Qed.

End Webhook.

(** ** Downlink relay *)

Section Downlink.

Variable coll_eqb : string -> string -> bool.
Variable UPPER : string -> string.
Variable TRIM : string -> string.
Variable toUpperCase : string -> string.
Variable trim : string -> string.
Variable base64 : string -> string.
Variable TTN_API_KEY : option string.

#[local] Abbreviation run := (run coll_eqb UPPER TRIM).

(** C9: a request with both fields whose lookup returns a sensor lacking
    its application id or its device id posts nothing to the network
    server, whatever else happens; and unless the lookup itself is made to
    fail, it is answered 409 [falta_app_o_device_id]. *)
Theorem post_downlink_sin_direccion (req : downlink_req) (w : world)
    (s : sensor) (resto : list sensor) :
  truthy (k_dev_eui req) = true ->
  truthy (k_cmd req) = true ->
  filter (dev_eui_normalizado_es coll_eqb UPPER TRIM
            (toUpperCase (trim (texto (k_dev_eui req)))))
    (sensores (store w)) = s :: resto ->
  truthy (app_id s) && truthy (device_id s) = false ->
  sent (snd (run (post_downlink toUpperCase trim base64 TTN_API_KEY req) w)) = sent w
  /\ (falla_primero w = false ->
      fst (run (post_downlink toUpperCase trim base64 TTN_API_KEY req) w)
      = Returned (mkResponse 409 (json_error "falta_app_o_device_id"))).
Proof.
  intros Hd Hc Hfil Hfalta.
  unfold post_downlink. rewrite Hd, Hc. cbn [negb orb].
  destruct w as [st t l n f se tt last]. cbn [store] in Hfil.
  assert (Hq : negb (truthy (app_id s)) || negb (truthy (device_id s)) = true).
  { destruct (truthy (app_id s)), (truthy (device_id s)); try discriminate; reflexivity. }
  unfold falla_primero. cbn [faults].
  destruct f as [|[e|] fs]; evaluar; unfold sql_en; cbn [exec_sql];
    rewrite ?Hfil; cbn [map firstn]; evaluar; rewrite ?Hq; evaluar;
    split; try reflexivity; intro H; try discriminate H; reflexivity.
Qed.

End Downlink.

(** ** Health probe *)

Section Health.

Variable coll_eqb : string -> string -> bool.
Variable UPPER : string -> string.
Variable TRIM : string -> string.

#[local] Abbreviation run := (run coll_eqb UPPER TRIM).

(** C10: when the connection is obtained and the ping fails, the probe
    answers 500 and the pool is left with one more connection out; on the
    path where both succeed the connection is given back; and when no
    connection could be obtained there is none to give back. *)
Theorem get_health_no_libera (w : world) (e : error) (fs : list (option error)) :
  (fst (run get_health (con_faults w (None :: Some e :: fs)))
   = Returned (mkResponse 500 (Json [("ok", JBool false); ("error", JStr "DB ping failed")]))
   /\ leased (snd (run get_health (con_faults w (None :: Some e :: fs)))) = S (leased w))
  /\ (fst (run get_health (con_faults w (None :: None :: fs)))
      = Returned (mkResponse 200 (Json [("ok", JBool true)]))
      /\ leased (snd (run get_health (con_faults w (None :: None :: fs)))) = leased w)
  /\ (fst (run get_health (con_faults w [])) = Returned (mkResponse 200 (Json [("ok", JBool true)]))
      /\ leased (snd (run get_health (con_faults w []))) = leased w)
  /\ (fst (run get_health (con_faults w (Some e :: fs)))
      = Returned (mkResponse 500 (Json [("ok", JBool false); ("error", JStr "DB ping failed")]))
      /\ leased (snd (run get_health (con_faults w (Some e :: fs)))) = leased w).
Proof.
  destruct w as [st t l n f se tt last].
  unfold get_health. evaluar.
  repeat split.
Qed.

End Health.

(* ===================================================================== *)
(** * The scenarios of the specification *)
(* ===================================================================== *)

(** Back-linking: sensor 5, which has no EUI, gets the EUI sent with its
    id; the same call with another EUI then leaves the first one in place. *)
Example vincular_y_repetir :
  map dev_eui
    (sensores (store (snd (run String.eqb mayusculas sin_espacios
                             (put_actualizar req_vincular) (mundo db_ejemplo)))))
  = [Some "0011223344556677"; Some "AABBCCDDEEFF0011"]
  /\ map dev_eui
       (sensores (store (snd (run String.eqb mayusculas sin_espacios
                                (put_actualizar req_revincular)
                                (snd (run String.eqb mayusculas sin_espacios
                                        (put_actualizar req_vincular)
                                        (mundo db_ejemplo)))))))
     = [Some "0011223344556677"; Some "AABBCCDDEEFF0011"].
Proof. split; reflexivity. Qed.

(** Merge semantics: [{id_sensor: 5, modo: "manual"}] changes the mode and
    the timestamp of sensor 5, clears its threshold, and keeps its labels. *)
Example solo_modo_manual :
  sensores (store (snd (run String.eqb mayusculas sin_espacios
                          (put_actualizar req_modo_manual) (mundo db_ejemplo))))
  = [mkSensor 5 "Nave 1" (Some 1) None (Some "DHT22") (Some "norte") (Some "Z1")
       (Some "S1") (Some "manual") None None None None (Some 1000);
     sensor_6].
Proof. reflexivity. Qed.

(** End to end: a valid uplink of an unseen device creates one sensor and
    one measurement that refers to it. *)
Example uplink_de_dispositivo_nuevo :
  run String.eqb mayusculas sin_espacios (post_webhook mayusculas uplink_nuevo)
    (mundo db_ejemplo)
  = (Returned (mkResponse 200 (Send "OK")),
     mundo (mkDatabase
              [sensor_5; sensor_6;
               nuevo_sensor 7 "TTN-0011223344556677" (Some "0011223344556677") None]
              [mkMedicion 1 (Some 7) (num (25 # 1)) (num (60 # 1)) (num (70 # 1))]
              8 2)).
Proof. reflexivity. Qed.

(** An out-of-range reading is refused by the validating webhook and
    nothing is stored. *)
Example uplink_rechazado :
  run String.eqb mayusculas sin_espacios (post_webhook mayusculas uplink_fuera_de_rango)
    (mundo db_ejemplo)
  = (Returned (mkResponse 422 (json_error "Lectura fuera de rango o no numérica")),
     mundo db_ejemplo).
Proof. reflexivity. Qed.

(* ===================================================================== *)
(** * Witnesses and counterexamples *)
(* ===================================================================== *)


(** C3, witness: an unseen EUI on the example database. *)
Lemma getOrCreateSensorByDevEui_spec_witness :
  (forall s, String.eqb s s = true)
  /\ faults (mundo db_ejemplo) = []
  /\ exists w',
       run String.eqb mayusculas sin_espacios
         (getOrCreateSensorByDevEui "0011223344556677") (mundo db_ejemplo)
       = (Returned 7, w')
       /\ sensores (store w')
          = [sensor_5; sensor_6;
             nuevo_sensor 7 "TTN-0011223344556677" (Some "0011223344556677") None]
       /\ mediciones (store w') = []
       /\ run String.eqb mayusculas sin_espacios
            (getOrCreateSensorByDevEui "0011223344556677") w'
          = (Returned 7, w').
Proof.
  split; [exact String.eqb_refl|]. split; [reflexivity|].
  exact (@getOrCreateSensorByDevEui_spec String.eqb mayusculas sin_espacios
           String.eqb_refl "0011223344556677" (mundo db_ejemplo) eq_refl).
Defined.





(** C8, witness: two uplinks of the same unseen device on the example
    database. *)
Lemma carrera_primer_avistamiento_witness :
  (forall s, String.eqb s s = true)
  /\ faults (mundo db_ejemplo) = []
  /\ filter (dev_eui_es String.eqb "0011223344556677") (sensores (store (mundo db_ejemplo)))
     = []
  /\ normalizarDevEui mayusculas (Some "00:11:22:33:44:55:66:77") = Some "0011223344556677"
  /\ fst (concurrente String.eqb mayusculas sin_espacios [0; 1; 1; 0]%nat
            [post_webhook mayusculas uplink_nuevo; post_webhook mayusculas uplink_nuevo]
            (mundo db_ejemplo))
     = [Returned (mkResponse 500 (Send "Error en base de datos"));
        Returned (mkResponse 200 (Send "OK"))].
Proof.
  split; [exact String.eqb_refl|]. split; [reflexivity|].
  split; [reflexivity|]. split; [reflexivity|].
  exact (proj1 (proj2
           (@carrera_primer_avistamiento String.eqb mayusculas sin_espacios mayusculas
              String.eqb_refl "0011223344556677"
              "00:11:22:33:44:55:66:77" "00:11:22:33:44:55:66:77" None None
              (mkLectura (num (25 # 1)) (num (60 # 1)) (num (70 # 1)))
              (mkLectura (num (25 # 1)) (num (60 # 1)) (num (70 # 1)))
              (mundo db_ejemplo)
              eq_refl eq_refl eq_refl eq_refl eq_refl eq_refl eq_refl))).
Defined.

(** C8, counterexample: in that race the first caller of
    [getOrCreateSensorByDevEui] ends with the duplicate-insert error, not
    with the id 7 the second caller registered, and its request fails. *)
Lemma carrera_sin_reintento :
  fst (concurrente String.eqb mayusculas sin_espacios [0; 1; 1; 0]%nat
         [getOrCreateSensorByDevEui "0011223344556677";
          getOrCreateSensorByDevEui "0011223344556677"] (mundo db_ejemplo))
  = [Thrown ER_DUP_ENTRY; Returned 7]
  /\ fst (concurrente String.eqb mayusculas sin_espacios [0; 1; 1; 0]%nat
            [post_webhook mayusculas uplink_nuevo; post_webhook mayusculas uplink_nuevo]
            (mundo db_ejemplo))
     = [Returned (mkResponse 500 (Send "Error en base de datos"));
        Returned (mkResponse 200 (Send "OK"))].
Proof. repeat split. Qed.

(** C9, witness: a downlink to sensor 6, which has no addressing pair. *)
Lemma post_downlink_sin_direccion_witness :
  truthy (k_dev_eui req_downlink) = true
  /\ truthy (k_cmd req_downlink) = true
  /\ truthy (app_id sensor_6) && truthy (device_id sensor_6) = false
  /\ sent (snd (run String.eqb mayusculas sin_espacios
                  (post_downlink mayusculas sin_espacios sin_espacios (Some "NNSXS")
                     req_downlink)
                  (mundo db_ejemplo)))
     = []
  /\ fst (run String.eqb mayusculas sin_espacios
            (post_downlink mayusculas sin_espacios sin_espacios (Some "NNSXS")
               req_downlink)
            (mundo db_ejemplo))
     = Returned (mkResponse 409 (json_error "falta_app_o_device_id")).
Proof.
  split; [reflexivity|]. split; [reflexivity|]. split; [reflexivity|].
  destruct (@post_downlink_sin_direccion String.eqb mayusculas sin_espacios
              mayusculas sin_espacios sin_espacios (Some "NNSXS")
              req_downlink (mundo db_ejemplo) sensor_6 []
              eq_refl eq_refl eq_refl eq_refl) as [Hs Hr].
  split; [exact Hs|exact (Hr eq_refl)].
Defined.

(** C2, witness: the same call against sensor 6, whose EUI is populated,
    with another EUI. *)
Lemma put_actualizar_no_pisa_dev_eui_witness :
  tx (mundo db_ejemplo) = None
  /\ Forall2 (respeta_dev_eui String.eqb req_otro_eui)
       (sensores (store (mundo db_ejemplo)))
       (sensores (store (snd (run String.eqb mayusculas sin_espacios
                                (put_actualizar req_otro_eui) (mundo db_ejemplo)))))
  /\ map dev_eui
       (sensores (store (snd (run String.eqb mayusculas sin_espacios
                                (put_actualizar req_otro_eui) (mundo db_ejemplo)))))
     = [None; Some "AABBCCDDEEFF0011"].
Proof.
  split; [reflexivity|]. split; [|reflexivity].
  exact (@put_actualizar_no_pisa_dev_eui String.eqb mayusculas sin_espacios
           req_otro_eui (mundo db_ejemplo) eq_refl).
Defined.

(* ===================================================================== *)
(** * Further properties of the handlers *)
(* ===================================================================== *)

(** Evaluation of a handler under every course of events: run it as far as
    it goes, then split on what the next awaited operation finds in
    [faults], on the transaction left open, on the rows a lookup returns,
    or on a test that depends on the tables. *)
Ltac abrir := evaluar; unfold sql_en; cbn [exec_sql]; evaluar.

Ltac explorar :=
  repeat
    (match goal with
     | |- context [match ?f with [] => _ | _ :: _ => _ end] =>
         is_var f; destruct f as [|[?|] ?]
     | |- context [match ?t with Some _ => _ | None => _ end] =>
         is_var t; destruct t
     | |- context [match map ?h (filter ?g ?l) with _ => _ end] =>
         let E := fresh "Efil" in destruct (filter g l) as [|? ?] eqn:E; cbn [map]
     | |- context [match firstn 1 (map ?h (filter ?g ?l)) with _ => _ end] =>
         let E := fresh "Efil" in
         destruct (filter g l) as [|? ?] eqn:E; cbn [map firstn]
     | |- context [match find_eui ?e ?l with _ => _ end] =>
         let E := fresh "Efind" in destruct (find_eui e l) as [[? ?]|] eqn:E
     | |- context [if ocupado ?c ?e ?x ?l then _ else _] =>
         let E := fresh "Eoc" in destruct (ocupado c e x l) eqn:E
     | |- context [if ?b then _ else _] =>
         let E := fresh "Eif" in destruct b eqn:E
     end;
     abrir).

Section Conexion.

Variable coll_eqb : string -> string -> bool.
Variable UPPER : string -> string.
Variable TRIM : string -> string.

#[local] Abbreviation run := (run coll_eqb UPPER TRIM).

(** X1: the transactional update gives its connection back on every path:
    whatever the request and whatever fails, the pool has as many
    connections out after the call as before it. *)
Theorem put_actualizar_libera_conexion (req : actualizar_req) (w : world) :
  leased (snd (run (put_actualizar req) w)) = leased w.
Proof.
  unfold put_actualizar.
  destruct w as [st t l n f s tt last].
  abrir. explorar. all: reflexivity.
Qed.

(** X2: the connection is requested outside the [try]: when the pool
    rejects the request for a connection, the error escapes the handler, no
    response is sent and nothing is touched.  The same happens when the
    rollback itself fails, the connection being released all the same. *)
Theorem put_actualizar_sin_respuesta (req : actualizar_req) (w : world)
    (e e1 e2 : error) (fs : list (option error)) :
  con_selector req = true ->
  run (put_actualizar req) (con_faults w (Some e :: fs)) = (Thrown e, con_faults w fs)
  /\ fst (run (put_actualizar req) (con_faults w (None :: Some e1 :: Some e2 :: fs)))
     = Thrown e2
  /\ store (snd (run (put_actualizar req) (con_faults w (None :: Some e1 :: Some e2 :: fs))))
     = store w
  /\ leased (snd (run (put_actualizar req) (con_faults w (None :: Some e1 :: Some e2 :: fs))))
     = leased w.
Proof.
  intro Hsel. unfold put_actualizar.
  assert (H : negb (truthyZ (b_id_sensor req)) && negb (truthy (b_dev_eui req)) = false).
  { unfold con_selector in Hsel.
    destruct (truthyZ (b_id_sensor req)), (truthy (b_dev_eui req));
      try discriminate; reflexivity. }
  rewrite H. destruct w as [st t l n f s tt last].
  abrir. repeat split.
Qed.

End Conexion.

Section Respuestas.

Variable coll_eqb : string -> string -> bool.
Variable UPPER : string -> string.
Variable TRIM : string -> string.
Variable toUpperCase : string -> string.
Variable trim : string -> string.
Variable base64 : string -> string.
Variable TTN_API_KEY : option string.

#[local] Abbreviation run := (run coll_eqb UPPER TRIM).

Ltac respondido :=
  eexists; split; [reflexivity|]; cbn [status In]; auto 10.

(** X3: every handler whose body lies inside [try ... catch] answers every
    request, whatever fails, and with one of the statuses its code names. *)
Theorem siempre_responden (w : world) :
  (forall req, responde [200; 400; 422; 500] (fst (run (post_webhook toUpperCase req) w)))
  /\ (forall req, responde [200; 400; 500] (fst (run (post_webhook_cache req) w)))
  /\ (forall req, responde [200; 400; 500] (fst (run (post_webhook_early req) w)))
  /\ (forall req, responde [200; 400; 404; 500]
                    (fst (run (put_actualizar_eui toUpperCase trim req) w)))
  /\ (forall req, responde [200; 400; 404; 409; 500; 502]
                    (fst (run (post_downlink toUpperCase trim base64 TTN_API_KEY req) w)))
  /\ responde [200; 500] (fst (run get_health w))
  /\ (forall req, responde [201; 400; 500] (fst (run (post_sensores toUpperCase req) w)))
  /\ (forall req, responde [201; 400; 500] (fst (run (post_sensores_basico req) w))).
Proof.
  destruct w as [st t l n f s tt last].
  repeat match goal with |- _ /\ _ => split end; try intro req.
  - unfold post_webhook, getOrCreateSensorByDevEui.
    destruct (decoded_payload req) as [p|]; abrir; explorar; respondido.
  - unfold post_webhook_cache.
    destruct (decoded_payload req) as [p|]; abrir; explorar; respondido.
  - unfold post_webhook_early.
    destruct (decoded_payload req) as [p|]; abrir; explorar; respondido.
  - unfold put_actualizar_eui. abrir. explorar. all: respondido.
  - unfold post_downlink. abrir. explorar. all: respondido.
  - unfold get_health. abrir. explorar. all: respondido.
  - unfold post_sensores. abrir. explorar. all: respondido.
  - unfold post_sensores_basico. abrir. explorar. all: respondido.
Qed.

End Respuestas.

Section WebhookMas.

Variable coll_eqb : string -> string -> bool.
Variable UPPER : string -> string.
Variable TRIM : string -> string.
Variable toUpperCase : string -> string.

#[local] Abbreviation run := (run coll_eqb UPPER TRIM).

(** X4: the validating webhook decides its rejections before it touches
    anything: a call answered 400 or 422 leaves the world as it was, and a
    call answered 200 or 500 carried a decoded payload, an identifier that
    normalizes to a non-empty EUI, and a reading the validator accepts. *)
Theorem post_webhook_rechaza_antes (req : webhook_req) (w w' : world) (resp : response) :
  run (post_webhook toUpperCase req) w = (Returned resp, w') ->
  (status resp = 400 \/ status resp = 422 -> w' = w)
  /\ (status resp = 200 \/ status resp = 500 ->
      exists p e,
        decoded_payload req = Some p
        /\ normalizarDevEui toUpperCase (end_device_ids_dev_eui req) = Some e
        /\ truthy (Some e) = true
        /\ lecturaValida (l_temperatura p) (l_humedad p) (l_ith p) = true).
Proof.
  unfold post_webhook, getOrCreateSensorByDevEui.
  destruct w as [st t l n f s tt last].
  destruct (decoded_payload req) as [p|].
  2:{ abrir. intro H. injection H as <- <-.
      split; [reflexivity|]. cbn [status]. intros [H|H]; discriminate H. }
  destruct (normalizarDevEui toUpperCase (end_device_ids_dev_eui req)) as [e|] eqn:He.
  2:{ abrir. intro H. injection H as <- <-.
      split; [reflexivity|]. cbn [status]. intros [H|H]; discriminate H. }
  destruct (truthy (Some e)) eqn:Ht.
  2:{ abrir. intro H. injection H as <- <-.
      split; [reflexivity|]. cbn [status]. intros [H|H]; discriminate H. }
  destruct (lecturaValida (l_temperatura p) (l_humedad p) (l_ith p)) eqn:Hv.
  2:{ abrir. intro H. injection H as <- <-.
      split; [reflexivity|]. cbn [status]. intros [H|H]; discriminate H. }
  cbn [negb texto]. abrir. explorar.
  all: intro H; injection H as <- <-; cbn [status];
       (split; [intros [H|H]; discriminate H|]);
       intros _; exists p, e; repeat split; assumption.
Qed.

(** X5: the validating webhook touches [sensores] only by appending at most
    one placeholder for the normalized EUI, whatever fails; and it is not
    transactional: when the sensor is new and the insert of the measurement
    then fails, the answer is 500 and the placeholder stays. *)
Theorem post_webhook_deja_el_sensor (req : webhook_req) (w : world) :
  (sensores (store (snd (run (post_webhook toUpperCase req) w))) = sensores (store w)
   \/ exists e,
        normalizarDevEui toUpperCase (end_device_ids_dev_eui req) = Some e
        /\ sensores (store (snd (run (post_webhook toUpperCase req) w)))
           = (sensores (store w)
              ++ [nuevo_sensor (auto_sensor (store w)) ("TTN-" ++ e) (Some e) None])%list)
  /\ (forall p e err fs,
        decoded_payload req = Some p ->
        normalizarDevEui toUpperCase (end_device_ids_dev_eui req) = Some e ->
        truthy (Some e) = true ->
        lecturaValida (l_temperatura p) (l_humedad p) (l_ith p) = true ->
        filter (dev_eui_es coll_eqb e) (sensores (store w)) = [] ->
        faults w = None :: None :: Some err :: fs ->
        fst (run (post_webhook toUpperCase req) w)
        = Returned (mkResponse 500 (Send "Error en base de datos"))
        /\ sensores (store (snd (run (post_webhook toUpperCase req) w)))
           = (sensores (store w)
              ++ [nuevo_sensor (auto_sensor (store w)) ("TTN-" ++ e) (Some e) None])%list
        /\ mediciones (store (snd (run (post_webhook toUpperCase req) w)))
           = mediciones (store w)).
Proof.
  split.
  - unfold post_webhook, getOrCreateSensorByDevEui.
    destruct w as [st t l n f s tt last].
    destruct (decoded_payload req) as [p|]; [|now left].
    destruct (normalizarDevEui toUpperCase (end_device_ids_dev_eui req)) as [e|] eqn:He;
      [|now left].
    destruct (truthy (Some e)); [|now left].
    destruct (lecturaValida (l_temperatura p) (l_humedad p) (l_ith p)); [|now left].
    cbn [negb texto]. abrir. explorar.
    all: try (left; reflexivity).
    all: right; exists e; split; reflexivity.
  - intros p e err fs Hp He Ht Hv Hn Hf.
    unfold post_webhook, getOrCreateSensorByDevEui.
    destruct w as [st t l n f s tt last]. cbn [faults store] in *. subst f.
    rewrite Hp, He, Ht, Hv. cbn [negb texto].
    abrir. rewrite Hn. cbn [map]. abrir.
    rewrite ocupado_None, (existsb_filter_nil _ _ Hn). abrir.
    split; [reflexivity|]. split; reflexivity.
Qed.

(** X6: the validating webhook answers 200 exactly when it stored one
    measurement, which then carries the next id of the table; on every other
    answer [mediciones] is what it was. *)
Theorem post_webhook_200_si_guarda (req : webhook_req) (w : world) :
  (fst (run (post_webhook toUpperCase req) w) = Returned (mkResponse 200 (Send "OK"))
   /\ exists m,
        mediciones (store (snd (run (post_webhook toUpperCase req) w)))
        = (mediciones (store w) ++ [m])%list
        /\ id_medicion m = auto_medicion (store w))
  \/ (mediciones (store (snd (run (post_webhook toUpperCase req) w)))
      = mediciones (store w)
      /\ exists resp,
           fst (run (post_webhook toUpperCase req) w) = Returned resp
           /\ In (status resp) [400; 422; 500]).
Proof.
  unfold post_webhook, getOrCreateSensorByDevEui.
  destruct w as [st t l n f s tt last].
  destruct (decoded_payload req) as [p|];
    [|right; split; [reflexivity|eexists; split; [reflexivity|cbn; auto]]].
  abrir. explorar.
  all: try (right; split; [reflexivity|eexists; split; [reflexivity|cbn; auto]]).
  all: left; split; [reflexivity|]; eexists; split; reflexivity.
Qed.

(** X7: the caching webhook records the identifier of the uplink before it
    looks at the payload: whatever the answer (400, 200 or 500), the cache
    holds [dev_eui], else [device_id], as received, and keeps its previous
    value when the uplink has neither; GET /dev-eui-ultimo then answers with
    that value. *)
Theorem post_webhook_cache_recuerda (req : webhook_req) (w : world) :
  lastDevEui (snd (run (post_webhook_cache req) w))
  = (if truthy (identificador req) then identificador req else lastDevEui w)
  /\ get_dev_eui_ultimo (snd (run (post_webhook_cache req) w))
     = (if truthy (identificador req)
        then mkResponse 200 (Json [("dev_eui", JStr (texto (identificador req)))])
        else get_dev_eui_ultimo w)
  /\ store (snd (run (post_webhook_early req) w))
     = store (snd (run (post_webhook_cache req) w)).
Proof.
  unfold post_webhook_cache, post_webhook_early, get_dev_eui_ultimo.
  fold (identificador req).
  destruct w as [st t l n f s tt last].
  destruct (truthy (identificador req)) eqn:Hi;
    destruct (decoded_payload req) as [p|]; abrir; rewrite ?Hi; abrir;
    explorar; rewrite ?Hi; repeat split.
  all: rewrite Hi in *; discriminate.
Qed.

End WebhookMas.

Section DownlinkMas.

Variable coll_eqb : string -> string -> bool.
Variable UPPER : string -> string.
Variable TRIM : string -> string.
Variable toUpperCase : string -> string.
Variable trim : string -> string.
Variable base64 : string -> string.
Variable TTN_API_KEY : option string.

#[local] Abbreviation run := (run coll_eqb UPPER TRIM).

(** X8: the relay never writes to the store and posts at most one downlink
    per call, whatever fails; and when it posts one, the request carried both
    fields, the key is configured, and the downlink is the one addressed to
    the first sensor whose trimmed upper-case EUI equals the trimmed
    upper-case EUI sent: port 1, normal priority, the command in base64. *)
Theorem post_downlink_a_lo_sumo_uno (req : downlink_req) (w : world) :
  store (snd (run (post_downlink toUpperCase trim base64 TTN_API_KEY req) w)) = store w
  /\ (sent (snd (run (post_downlink toUpperCase trim base64 TTN_API_KEY req) w)) = sent w
      \/ exists s resto,
           filter (dev_eui_normalizado_es coll_eqb UPPER TRIM
                     (toUpperCase (trim (texto (k_dev_eui req)))))
             (sensores (store w)) = s :: resto
           /\ truthy (k_dev_eui req) = true /\ truthy (k_cmd req) = true
           /\ truthy (app_id s) = true /\ truthy (device_id s) = true
           /\ truthy TTN_API_KEY = true
           /\ sent (snd (run (post_downlink toUpperCase trim base64 TTN_API_KEY req) w))
              = (sent w
                 ++ [downlink_de base64 TTN_API_KEY (app_id s) (device_id s)
                       (k_cmd req)])%list).
Proof.
  unfold post_downlink.
  destruct w as [st t l n f se tt last].
  destruct (truthy (k_dev_eui req)) eqn:Hd; [|abrir; split; [reflexivity|now left]].
  destruct (truthy (k_cmd req)) eqn:Hc; [|abrir; split; [reflexivity|now left]].
  abrir. explorar.
  all: split; [reflexivity|].
  all: try (left; reflexivity).
  all: right;
       match goal with
       | E : filter _ _ = ?s0 :: ?r |- _ =>
           exists s0, r;
           destruct (truthy (app_id s0)) eqn:?; [|discriminate];
           destruct (truthy (device_id s0)) eqn:?; [|discriminate]
       end;
       repeat match goal with
              | H : (if ?b then false else true) = false |- _ =>
                  destruct b eqn:?; [clear H|discriminate H]
              end;
       repeat (split; [first [assumption|reflexivity]|]); reflexivity.
Qed.


End DownlinkMas.

Section ActualizarMas.

Variable coll_eqb : string -> string -> bool.
Variable UPPER : string -> string.
Variable TRIM : string -> string.
Variable toUpperCase : string -> string.
Variable trim : string -> string.

#[local] Abbreviation run := (run coll_eqb UPPER TRIM).

Lemma actualizar_nadie (c : sensor -> bool) (f : sensor -> sensor) (rows : list sensor) :
  filter c rows = [] -> actualizar c f rows = rows.
Proof.
  induction rows as [|s r IH]; simpl; [reflexivity|].
  destruct (c s); [discriminate|]. intro H. now rewrite IH.
Qed.

Lemma con_sensores_sensores (d : database) : con_sensores d (sensores d) = d.
Proof. destruct d; reflexivity. Qed.

(** X10: the update located by EUI never writes an id, a name, a farm, an
    EUI, a device id or an addressing field, and never touches
    [mediciones], whatever the request and whatever fails. *)
Theorem put_actualizar_eui_marco (req : actualizar_req) (w : world) :
  Forall2
    (fun s s' => misma_identidad s s' /\ dev_eui s' = dev_eui s /\ dev_id s' = dev_id s)
    (sensores (store w))
    (sensores (store (snd (run (put_actualizar_eui toUpperCase trim req) w))))
  /\ mediciones (store (snd (run (put_actualizar_eui toUpperCase trim req) w)))
     = mediciones (store w).
Proof.
  assert (Hrefl : forall l : list sensor,
            Forall2 (fun s s' => misma_identidad s s' /\ dev_eui s' = dev_eui s
                                 /\ dev_id s' = dev_id s) l l).
  { intro l. rewrite <- (map_id l) at 2. apply Forall2_map_puntual.
    intros s _. unfold misma_identidad. repeat split. }
  unfold put_actualizar_eui.
  destruct w as [st t l n f s tt last].
  abrir. explorar.
  all: split; [|reflexivity].
  all: try apply Hrefl.
  all: cbn [sensores con_sensores]; unfold actualizar; apply Forall2_map_puntual;
       intros fila _; destruct (cumple _ _ fila); unfold misma_identidad; repeat split.
Qed.

Lemma stmt_vincular_nadie (req : actualizar_req) (n : Z) (d : database) :
  filter (sin_vincular coll_eqb req) (sensores d) = [] ->
  sql_en coll_eqb UPPER TRIM n (stmt_vincular req) d = inr (mkHeader 0 0, d).
Proof.
  intro Hv. unfold sql_en, stmt_vincular. cbn [exec_sql].
  fold (sin_vincular coll_eqb req).
  rewrite (existsb_filter_nil _ _ Hv). cbn [andb].
  unfold cuenta. rewrite Hv, (actualizar_nadie _ _ _ Hv), con_sensores_sensores.
  reflexivity.
Qed.

Lemma sin_vincular_nadie (req : actualizar_req) (rows : list sensor) :
  ambos req = true ->
  filter (cumple coll_eqb (seleccion req)) rows = [] ->
  filter (sin_vincular coll_eqb req) rows = [].
Proof.
  unfold ambos, seleccion. intro Hab. apply andb_true_iff in Hab as [-> _].
  induction rows as [|s r IH]; simpl; [reflexivity|].
  unfold sin_vincular at 1.
  destruct (id_sensor s =? entero (b_id_sensor req)); [discriminate|].
  simpl. exact IH.
Qed.

(** X11: a selector that matches no sensor is not an error for the
    transactional update: when nothing fails the call answers 200 with
    [affected: 0] and the store is left as it was. *)
Theorem put_actualizar_sin_coincidencia (req : actualizar_req) (w : world) :
  faults w = [] ->
  tx w = None ->
  con_selector req = true ->
  filter (cumple coll_eqb (seleccion req)) (sensores (store w)) = [] ->
  fst (run (put_actualizar req) w)
  = Returned (mkResponse 200 (Json [("ok", JBool true); ("affected", JNum 0)]))
  /\ store (snd (run (put_actualizar req) w)) = store w.
Proof.
  intros Hf Htx Hsel Hn.
  assert (Hv : ambos req = true ->
               filter (sin_vincular coll_eqb req) (sensores (store w)) = []).
  { intro Hab. apply (sin_vincular_nadie _ _ Hab Hn). }
  unfold put_actualizar.
  assert (H : negb (truthyZ (b_id_sensor req)) && negb (truthy (b_dev_eui req)) = false).
  { unfold con_selector in Hsel.
    destruct (truthyZ (b_id_sensor req)), (truthy (b_dev_eui req));
      try discriminate; reflexivity. }
  rewrite H.
  fold (seleccion req). fold (stmt_campos req). fold (stmt_vincular req). fold (ambos req).
  destruct w as [st t l n f s tt last]. cbn [faults store tx] in *. subst f t.
  unfold sync.
  destruct (ambos req) eqn:Hab.
  - specialize (Hv eq_refl).
    repeat first
      [ rewrite stmt_campos_ok; unfold cuenta;
        rewrite Hn, (actualizar_nadie _ _ _ Hn), con_sensores_sensores; reducir
      | rewrite (stmt_vincular_nadie _ _ _ Hv); reducir
      | paso ].
    split; reflexivity.
  - repeat first
      [ rewrite stmt_campos_ok; unfold cuenta;
        rewrite Hn, (actualizar_nadie _ _ _ Hn), con_sensores_sensores; reducir
      | paso ].
    split; reflexivity.
Qed.

(** X12: on a connection handed out with no transaction open, the
    transactional update never writes an id, a name, a farm or an addressing
    field, and never touches [mediciones] or the counters, whatever the
    request and whatever fails. *)
Theorem put_actualizar_marco (req : actualizar_req) (w : world) :
  tx w = None ->
  Forall2 misma_identidad
    (sensores (store w))
    (sensores (store (snd (run (put_actualizar req) w))))
  /\ mediciones (store (snd (run (put_actualizar req) w))) = mediciones (store w)
  /\ auto_sensor (store (snd (run (put_actualizar req) w))) = auto_sensor (store w)
  /\ auto_medicion (store (snd (run (put_actualizar req) w))) = auto_medicion (store w).
Proof.
  intro Htx.
  assert (Hrefl : forall l : list sensor, Forall2 misma_identidad l l).
  { intro l. rewrite <- (map_id l) at 2. apply Forall2_map_puntual.
    intros s _. unfold misma_identidad. repeat split. }
  destruct (put_actualizar_casos coll_eqb UPPER TRIM req w Htx)
    as [[-> _] | [h1 [d1 [E1 [_ Hst]]]]].
  - split; [apply Hrefl|]. repeat split.
  - rewrite stmt_campos_ok in E1. injection E1 as _ <-.
    destruct (ambos req).
    + destruct Hst as [h2 [d2 [E2 ->]]].
      apply stmt_vincular_ok in E2. subst d2.
      cbn [sensores mediciones auto_sensor auto_medicion con_sensores].
      split; [|repeat split].
      rewrite actualizar_dos. apply Forall2_map_puntual. intros s _.
      destruct (cumple coll_eqb (seleccion req) s);
        destruct (sin_vincular coll_eqb req _);
        unfold misma_identidad; repeat split.
    + rewrite Hst.
      cbn [sensores mediciones auto_sensor auto_medicion con_sensores].
      split; [|repeat split].
      unfold actualizar. apply Forall2_map_puntual. intros s _.
      destruct (cumple coll_eqb (seleccion req) s);
        unfold misma_identidad; repeat split.
Qed.

End ActualizarMas.

Section RegistroMas.

Variable coll_eqb : string -> string -> bool.
Variable UPPER : string -> string.
Variable TRIM : string -> string.
Variable toUpperCase : string -> string.
Hypothesis coll_refl : forall s, coll_eqb s s = true.

#[local] Abbreviation run := (run coll_eqb UPPER TRIM).

(** X13: whatever fails, [getOrCreateSensorByDevEui] either returns the id
    of a row of the table that carries the EUI, having added at most that
    row, or throws and leaves the store as it was. *)
Theorem getOrCreateSensorByDevEui_resuelve (e : string) (w : world) :
  match run (getOrCreateSensorByDevEui e) w with
  | (Returned id, w') =>
      exists s,
        In s (sensores (store w')) /\ id_sensor s = id
        /\ dev_eui_es coll_eqb e s = true
        /\ (store w' = store w
            \/ sensores (store w') = (sensores (store w) ++ [s])%list)
  | (Thrown _, w') => store w' = store w
  end.
Proof.
  unfold getOrCreateSensorByDevEui.
  destruct w as [st t l n f se tt last].
  abrir. explorar.
  all: try reflexivity.
  all: match goal with
       | Efil : filter _ _ = ?s0 :: _ |- _ =>
           destruct (hd_filter_In _ _ Efil) as [Hin Hes];
           exists s0; repeat split; try assumption; now left
       | Efil : filter _ _ = [] |- _ =>
           exists (nuevo_sensor (auto_sensor st) ("TTN-" ++ e) (Some e) None);
           split; [apply in_or_app; right; now left|];
           split; [reflexivity|];
           split; [unfold dev_eui_es; cbn [dev_eui nuevo_sensor]; apply coll_refl|];
           right; reflexivity
       end.
Qed.

(** X14: a sensor registered through POST /sensores with an identifier whose
    normalized form [e] is carried by no row gets the next id, the EUI [e]
    (the empty string when nothing of the identifier is left) and the
    farm sent; [getOrCreateSensorByDevEui e] then returns that id and adds
    nothing, and an uplink of that device is stored against that sensor
    without a placeholder being created. *)
Theorem post_sensores_alta (req : sensores_req) (e : string) (w : world) :
  faults w = [] ->
  truthy (s_nombre_sensor req) = true ->
  normalizarDevEui toUpperCase (s_dev_eui req) = Some e ->
  filter (dev_eui_es coll_eqb e) (sensores (store w)) = [] ->
  exists w1,
    run (post_sensores toUpperCase req) w
    = (Returned (mkResponse 201
                   (Json [("id_sensor", JNum (auto_sensor (store w)));
                          ("mensaje", JStr "Sensor guardado")])), w1)
    /\ sensores (store w1)
       = (sensores (store w)
          ++ [nuevo_sensor (auto_sensor (store w)) (texto (s_nombre_sensor req))
                (Some e) (s_id_granja req)])%list
    /\ mediciones (store w1) = mediciones (store w)
    /\ run (getOrCreateSensorByDevEui e) w1 = (Returned (auto_sensor (store w)), w1)
    /\ (forall raw id p,
          normalizarDevEui toUpperCase (Some raw) = Some e ->
          truthy (Some e) = true ->
          lecturaValida (l_temperatura p) (l_humedad p) (l_ith p) = true ->
          fst (run (post_webhook toUpperCase (mkWebhook (Some raw) id (Some p))) w1)
          = Returned (mkResponse 200 (Send "OK"))
          /\ sensores (store (snd (run (post_webhook toUpperCase
                                          (mkWebhook (Some raw) id (Some p))) w1)))
             = sensores (store w1)
          /\ mediciones (store (snd (run (post_webhook toUpperCase
                                            (mkWebhook (Some raw) id (Some p))) w1)))
             = (mediciones (store w)
                ++ [mkMedicion (auto_medicion (store w)) (Some (auto_sensor (store w)))
                      (l_temperatura p) (l_humedad p) (l_ith p)])%list).
Proof.
  intros Hf Hn He Hfil.
  destruct w as [st t l n f se tt last]. cbn [faults store] in *. subst f.
  eexists. unfold post_sensores. rewrite Hn, He.
  abrir. rewrite ocupado_None, (existsb_filter_nil _ _ Hfil). abrir.
  split; [reflexivity|]. cbn [sensores mediciones].
  split; [reflexivity|]. split; [reflexivity|].
  split.
  - unfold getOrCreateSensorByDevEui. abrir. cbn [sensores].
    rewrite filter_nuevo by (assumption || reflexivity). cbn [map]. reflexivity.
  - intros raw id p Hr Ht Hv. unfold post_webhook, getOrCreateSensorByDevEui.
    cbn [decoded_payload end_device_ids_dev_eui].
    rewrite Hr, Ht, Hv. cbn [negb texto].
    abrir. cbn [sensores].
    rewrite filter_nuevo by (assumption || reflexivity). cbn [map]. abrir.
    cbn [sensores mediciones auto_medicion].
    split; [reflexivity|]. split; reflexivity.
Qed.

(** X15: POST /sensores with an identifier whose normalized form is already
    carried by a row is answered 500 and creates nothing, whatever else
    fails. *)
Theorem post_sensores_duplicado (req : sensores_req) (e : string) (w : world)
    (s : sensor) (resto : list sensor) :
  truthy (s_nombre_sensor req) = true ->
  normalizarDevEui toUpperCase (s_dev_eui req) = Some e ->
  filter (dev_eui_es coll_eqb e) (sensores (store w)) = s :: resto ->
  fst (run (post_sensores toUpperCase req) w)
  = Returned (mkResponse 500 (Send "Error en base de datos"))
  /\ store (snd (run (post_sensores toUpperCase req) w)) = store w.
Proof.
  intros Hn He Hfil.
  assert (Hoc : ocupado coll_eqb e None (sensores (store w)) = true).
  { rewrite ocupado_None. apply existsb_exists. exists s.
    apply (hd_filter_In _ _ Hfil). }
  destruct w as [st t l n f se tt last]. cbn [store] in *.
  unfold post_sensores. rewrite Hn, He.
  abrir. rewrite Hoc. explorar. all: split; reflexivity.
Qed.

(** X16: POST /sensores without EUI (the early variant, which requires a
    name and a farm) never meets the uniqueness of EUIs: a call that lacks a
    field is answered 400 and touches nothing; any other call either
    appends one row with a null EUI and answers 201 with its id, or is
    answered 500 and leaves the store as it was. *)
Theorem post_sensores_basico_casos (req : sensores_req) (w : world) :
  (truthy (s_nombre_sensor req) && truthyZ (s_id_granja req) = false
   /\ run (post_sensores_basico req) w
      = (Returned (mkResponse 400 (Send "Faltan datos del sensor")), w))
  \/ (truthy (s_nombre_sensor req) && truthyZ (s_id_granja req) = true
      /\ ((fst (run (post_sensores_basico req) w)
           = Returned (mkResponse 201
                         (Json [("id_sensor", JNum (auto_sensor (store w)));
                                ("mensaje", JStr "Sensor guardado")]))
           /\ sensores (store (snd (run (post_sensores_basico req) w)))
              = (sensores (store w)
                 ++ [nuevo_sensor (auto_sensor (store w)) (texto (s_nombre_sensor req))
                       None (s_id_granja req)])%list)
          \/ (fst (run (post_sensores_basico req) w)
              = Returned (mkResponse 500 (Send "Error en base de datos"))
              /\ store (snd (run (post_sensores_basico req) w)) = store w))).
Proof.
  unfold post_sensores_basico.
  destruct w as [st t l n f se tt last].
  destruct (truthy (s_nombre_sensor req)), (truthyZ (s_id_granja req)).
  2-4: left; split; reflexivity.
  right. split; [reflexivity|].
  abrir. explorar.
  all: first [left; split; reflexivity | right; split; reflexivity].
Qed.

End RegistroMas.

(** ** The normalizer on separators and case *)

Lemma quitar_no_hex_app (a b : string) :
  quitar_no_hex (a ++ b) = (quitar_no_hex a ++ quitar_no_hex b)%string.
Proof.
  induction a as [|c r IH]; simpl; [reflexivity|].
  destruct (es_hex c); simpl; now rewrite IH.
Qed.

Lemma mayusculas_app (a b : string) :
  mayusculas (a ++ b) = (mayusculas a ++ mayusculas b)%string.
Proof. induction a as [|c r IH]; simpl; [reflexivity|]. now rewrite IH. Qed.

Lemma es_ascii_app (a b : string) :
  es_ascii (a ++ b) = es_ascii a && es_ascii b.
Proof.
  induction a as [|c r IH]; simpl; [reflexivity|].
  now rewrite IH, andb_assoc.
Qed.

Lemma mayuscula_idem (c : ascii) : mayuscula (mayuscula c) = mayuscula c.
Proof.
  assert (Hm : mayuscula c
               = if (97 <=? nat_of_ascii c)%nat && (nat_of_ascii c <=? 122)%nat
                 then ascii_of_nat (nat_of_ascii c - 32) else c) by reflexivity.
  destruct ((97 <=? nat_of_ascii c)%nat && (nat_of_ascii c <=? 122)%nat) eqn:E;
    rewrite Hm.
  - apply andb_true_iff in E as [E1 E2].
    apply Nat.leb_le in E1. apply Nat.leb_le in E2.
    unfold mayuscula. rewrite nat_ascii_embedding by lia.
    destruct ((97 <=? nat_of_ascii c - 32)%nat && (nat_of_ascii c - 32 <=? 122)%nat) eqn:F;
      [|reflexivity].
    apply andb_true_iff in F as [F1 _]. apply Nat.leb_le in F1. lia.
  - unfold mayuscula. now rewrite E.
Qed.

Lemma mayusculas_idem (s : string) : mayusculas (mayusculas s) = mayusculas s.
Proof.
  induction s as [|c r IH]; simpl; [reflexivity|]. now rewrite mayuscula_idem, IH.
Qed.

Lemma mayuscula_ascii (c : ascii) :
  (nat_of_ascii c <? 128)%nat = true -> (nat_of_ascii (mayuscula c) <? 128)%nat = true.
Proof.
  intro H. unfold mayuscula.
  destruct ((97 <=? nat_of_ascii c)%nat && (nat_of_ascii c <=? 122)%nat) eqn:E;
    [|exact H].
  apply andb_true_iff in E as [E1 E2].
  apply Nat.leb_le in E1. apply Nat.leb_le in E2.
  rewrite nat_ascii_embedding by lia. apply Nat.ltb_lt. lia.
Qed.

Lemma mayusculas_ascii (s : string) : es_ascii s = true -> es_ascii (mayusculas s) = true.
Proof.
  induction s as [|c r IH]; simpl; [reflexivity|].
  intro H. apply andb_true_iff in H as [Hc Hr].
  now rewrite (mayuscula_ascii _ Hc), IH.
Qed.

Lemma mayusculas_vacia (s : string) : mayusculas s = "" -> s = "".
Proof. destruct s; [reflexivity|discriminate]. Qed.

Section NormalizerMas.

Variable toUpperCase : string -> string.
Hypothesis upper_ascii : upper_on_ascii toUpperCase.

(** X17: on ASCII text the normalizer sees neither separators nor case: a
    character that is not a hexadecimal digit in either case can be
    inserted anywhere in a non-empty identifier without changing the result,
    and an identifier and its upper-case form normalize alike. *)
Theorem normalizarDevEui_separadores (a b : string) (c : ascii) :
  es_ascii a = true -> es_ascii b = true ->
  (nat_of_ascii c <? 128)%nat = true ->
  es_hex (mayuscula c) = false ->
  (a ++ b)%string <> "" ->
  normalizarDevEui toUpperCase (Some (a ++ String c b))
  = normalizarDevEui toUpperCase (Some (a ++ b))
  /\ normalizarDevEui toUpperCase (Some (mayusculas (a ++ b)))
     = normalizarDevEui toUpperCase (Some (a ++ b)).
Proof.
  intros Ha Hb Hc Hx Hne.
  assert (Hab : es_ascii (a ++ b) = true) by now rewrite es_ascii_app, Ha, Hb.
  assert (Hacb : es_ascii (a ++ String c b) = true).
  { rewrite es_ascii_app, Ha. simpl. now rewrite Hc, Hb. }
  split.
  - unfold normalizarDevEui.
    destruct (a ++ String c b)%string as [|x r] eqn:E1.
    { destruct a; discriminate E1. }
    destruct (a ++ b)%string as [|y q] eqn:E2; [congruence|].
    simpl truthy. cbv iota beta. simpl negb. cbv iota.
    rewrite <- E1, <- E2.
    rewrite !upper_ascii by (rewrite ?E1, ?E2; assumption).
    rewrite !mayusculas_app, !quitar_no_hex_app. simpl. now rewrite Hx.
  - unfold normalizarDevEui.
    destruct (mayusculas (a ++ b)) as [|x r] eqn:E1.
    { apply mayusculas_vacia in E1. congruence. }
    destruct (a ++ b)%string as [|y q] eqn:E2; [congruence|].
    simpl truthy. cbv iota beta. simpl negb. cbv iota.
    rewrite <- E1.
    rewrite !upper_ascii by (try apply mayusculas_ascii; assumption).
    now rewrite mayusculas_idem.
Qed.

End NormalizerMas.

(** ** Read-only endpoints *)

Lemma fold_mejor_In {A} (gana : A -> A -> bool) (l : list A) (acc : option A) (b : A) :
  fold_left (fun mejor x =>
               match mejor with
               | None => Some x
               | Some b => if gana x b then Some x else Some b
               end) l acc = Some b ->
  acc = Some b \/ In b l.
Proof.
  revert acc. induction l as [|x r IH]; intros acc H; simpl in *; [now left|].
  destruct (IH _ H) as [E | Hin]; [|right; now right].
  destruct acc as [c|].
  - destruct (gana x c); injection E as <-; [right; now left|now left].
  - injection E as <-. right. now left.
Qed.

Lemma primero_In {A} (gana : A -> A -> bool) (l : list A) (b : A) (r : list A) :
  primero gana l = b :: r -> In b l /\ r = [].
Proof.
  unfold primero.
  destruct (fold_left _ l None) as [c|] eqn:E; [|discriminate].
  intro H. injection H as <- <-.
  destruct (fold_mejor_In _ _ _ E) as [H|H]; [discriminate|]. now split.
Qed.

Lemma primero_vacio {A} (gana : A -> A -> bool) (l : list A) :
  primero gana l = [] -> l = [].
Proof.
  unfold primero. destruct l as [|x r]; [reflexivity|]. simpl.
  assert (H : forall (r : list A) (c : A),
            exists d, fold_left (fun mejor x =>
                                   match mejor with
                                   | None => Some x
                                   | Some b => if gana x b then Some x else Some b
                                   end) r (Some c) = Some d).
  { clear. induction r as [|y r IH]; intro c; simpl; [now exists c|].
    destruct (gana y c); apply IH. }
  destruct (H r x) as [d ->]. discriminate.
Qed.

Lemma primero_ultimo {A} (gana : A -> A -> bool) (l : list A) (m : A) :
  (forall b, In b l -> gana m b = true) -> primero gana (l ++ [m]) = [m].
Proof.
  intro H. unfold primero. rewrite fold_left_app. simpl.
  destruct (fold_left _ l None) as [c|] eqn:E; [|reflexivity].
  destruct (fold_mejor_In _ _ _ E) as [F|F]; [discriminate|].
  now rewrite (H _ F).
Qed.

Section LecturasFacts.

Variable coll_eqb : string -> string -> bool.
Variable UPPER : string -> string.
Variable TRIM : string -> string.
Variable toUpperCase : string -> string.
Variable Number : string -> number.
Hypothesis coll_refl : forall s, coll_eqb s s = true.

#[local] Abbreviation run := (run coll_eqb UPPER TRIM).
#[local] Abbreviation run_lector := (run_lector coll_eqb).

Ltac leer :=
  cbv beta iota zeta delta
    [run_lector bindL pool_consulta try_catchL fila_o_404 eui_o_404
     faults store con_faults fst snd] in *.

(** X18: end to end: when nothing fails and the ids of [mediciones] lie
    below its counter, a valid uplink is stored, and GET /mediciones with
    any identifier that normalizes to the EUI of the uplink then returns
    that very measurement, whatever [id_sensor] the query also carries. *)
Theorem post_webhook_y_get_mediciones (req : webhook_req) (p : lectura) (e : string)
    (w : world) :
  faults w = [] ->
  decoded_payload req = Some p ->
  normalizarDevEui toUpperCase (end_device_ids_dev_eui req) = Some e ->
  truthy (Some e) = true ->
  lecturaValida (l_temperatura p) (l_humedad p) (l_ith p) = true ->
  (forall m, In m (mediciones (store w)) -> id_medicion m < auto_medicion (store w)) ->
  exists m,
    mediciones (store (snd (run (post_webhook toUpperCase req) w)))
    = (mediciones (store w) ++ [m])%list
    /\ (temperatura m, humedad m, ith m) = (l_temperatura p, l_humedad p, l_ith p)
    /\ forall raw ids,
         normalizarDevEui toUpperCase (Some raw) = Some e ->
         run_lector (get_mediciones toUpperCase Number (mkMedicionesQuery (Some raw) ids))
           (snd (run (post_webhook toUpperCase req) w))
         = (Returned (Fila m), snd (run (post_webhook toUpperCase req) w)).
Proof.
  intros Hf Hp He Ht Hv Hids.
  unfold post_webhook, getOrCreateSensorByDevEui.
  rewrite Hp, He, Ht, Hv. cbn [negb texto].
  destruct w as [st t l n f se tt last]. cbn [faults store] in *. subst f.
  assert (Hgana : forall (id : Z) (b : medicion) (c : medicion -> bool),
            In b (filter c (mediciones st)) ->
            medicion_posterior
              (mkMedicion (auto_medicion st) (Some id)
                 (l_temperatura p) (l_humedad p) (l_ith p)) b = true).
  { intros id b c Hb. apply filter_In in Hb as [Hb _].
    unfold medicion_posterior. cbn [id_medicion]. apply Z.ltb_lt. now apply Hids. }
  abrir.
  destruct (filter (dev_eui_es coll_eqb e) (sensores st)) as [|s r] eqn:Efil; cbn [map].
  - abrir. rewrite ocupado_None, (existsb_filter_nil _ _ Efil). abrir.
    cbn [sensores mediciones auto_sensor auto_medicion insertId].
    eexists. split; [reflexivity|]. split; [reflexivity|].
    intros raw ids Hr. unfold get_mediciones. cbn [q_dev_eui q_id_sensor].
    rewrite Hr, Ht. cbn [texto]. leer. cbn [exec_consulta sensores mediciones].
    rewrite filter_app. cbn [filter].
    assert (Hm : medicion_de coll_eqb e
                   (sensores st
                    ++ [nuevo_sensor (auto_sensor st) ("TTN-" ++ e) (Some e) None])
                   (mkMedicion (auto_medicion st) (Some (auto_sensor st))
                      (l_temperatura p) (l_humedad p) (l_ith p)) = true).
    { unfold medicion_de. cbn [m_id_sensor]. rewrite existsb_app.
      cbv beta iota delta [existsb id_sensor nuevo_sensor dev_eui_es dev_eui].
      now rewrite Z.eqb_refl, coll_refl, orb_true_r. }
    rewrite Hm. rewrite primero_ultimo by (intros b Hb; exact (Hgana _ _ _ Hb)).
    reflexivity.
  - abrir. cbn [sensores mediciones auto_sensor auto_medicion insertId].
    eexists. split; [reflexivity|]. split; [reflexivity|].
    intros raw ids Hr. unfold get_mediciones. cbn [q_dev_eui q_id_sensor].
    rewrite Hr, Ht. cbn [texto]. leer. cbn [exec_consulta sensores mediciones].
    rewrite filter_app. cbn [filter].
    destruct (hd_filter_In _ _ Efil) as [Hin Hes].
    assert (Hm : medicion_de coll_eqb e (sensores st)
                   (mkMedicion (auto_medicion st) (Some (id_sensor s))
                      (l_temperatura p) (l_humedad p) (l_ith p)) = true).
    { unfold medicion_de. cbn [m_id_sensor]. apply existsb_exists.
      exists s. split; [exact Hin|]. now rewrite Z.eqb_refl, Hes. }
    rewrite Hm. rewrite primero_ultimo by (intros b Hb; exact (Hgana _ _ _ Hb)).
    reflexivity.
Qed.

(** X19: GET /mediciones silently drops a filter that comes to nothing: an
    identifier with no hexadecimal digit left after normalization, and an
    [id_sensor] that [Number] reads as NaN or zero, are treated as absent,
    so the call returns the latest measurement of the whole table instead of
    answering 404. *)
Theorem get_mediciones_filtro_ignorado (query : mediciones_query) (w : world) :
  truthy (normalizarDevEui toUpperCase (q_dev_eui query)) = false ->
  (truthy (q_id_sensor query) = true ->
   truthy_num (Number (texto (q_id_sensor query))) = false) ->
  run_lector (get_mediciones toUpperCase Number query) w
  = run_lector (get_mediciones toUpperCase Number (mkMedicionesQuery None None)) w
  /\ (faults w = [] -> forall m resto,
        primero medicion_posterior (mediciones (store w)) = m :: resto ->
        fst (run_lector (get_mediciones toUpperCase Number query) w) = Returned (Fila m)).
Proof.
  intros Hd Hi.
  assert (E : get_mediciones toUpperCase Number query
              = get_mediciones toUpperCase Number (mkMedicionesQuery None None)).
  { unfold get_mediciones. rewrite Hd. cbn [q_dev_eui q_id_sensor truthy normalizarDevEui negb].
    destruct (truthy (q_id_sensor query)); [|reflexivity].
    now rewrite (Hi eq_refl). }
  rewrite E. split; [reflexivity|].
  intros Hf m resto Hm. unfold get_mediciones.
  cbn [q_dev_eui q_id_sensor truthy normalizarDevEui negb].
  destruct w as [st t l n f se tt last]. cbn [faults store] in *. subst f.
  leer. cbn [exec_consulta]. now rewrite Hm.
Qed.

(** X20: GET /api/dev-eui-ultimo falls back to the ordering by id exactly
    when its first statement is refused with [ER_BAD_FIELD_ERROR] (a schema
    without [updated_at]); any other error is answered 500; and the second
    statement runs inside the [catch], so its failure escapes the handler and
    no response is sent. *)
Theorem get_api_dev_eui_ultimo_respaldo (w : world) (e : error)
    (fs : list (option error)) :
  (es_bad_field e = true ->
   run_lector get_api_dev_eui_ultimo (con_faults w (Some e :: fs))
   = run_lector
       (bindL (pool_consulta SelectUltimoDevEuiPorId) eui_o_404) (con_faults w fs))
  /\ (es_bad_field e = false ->
      run_lector get_api_dev_eui_ultimo (con_faults w (Some e :: fs))
      = (Returned (mkResponse 500 (json_error "db_error")), con_faults w fs))
  /\ (forall e', es_bad_field e = true ->
      run_lector get_api_dev_eui_ultimo (con_faults w (Some e :: Some e' :: fs))
      = (Thrown e', con_faults w fs)).
Proof.
  destruct w as [st t l n f se tt last].
  unfold get_api_dev_eui_ultimo.
  split; [|split].
  - intro H. leer. rewrite H. reflexivity.
  - intro H. leer. rewrite H. reflexivity.
  - intros e' H. leer. rewrite H. reflexivity.
Qed.

(** X21: when nothing fails, GET /api/dev-eui-ultimo answers 404 exactly
    when every sensor has a null or empty EUI, and otherwise 200 with the
    EUI of a row of the table whose EUI is neither. *)
Theorem get_api_dev_eui_ultimo_existe (w : world) :
  faults w = [] ->
  (fst (run_lector get_api_dev_eui_ultimo w)
   = Returned (mkResponse 404 (json_error "sin_dev_eui"))
   /\ forall s, In s (sensores (store w)) -> sin_dev_eui coll_eqb s = true)
  \/ exists s e,
       In s (sensores (store w)) /\ dev_eui s = Some e
       /\ sin_dev_eui coll_eqb s = false
       /\ fst (run_lector get_api_dev_eui_ultimo w)
          = Returned (mkResponse 200 (Json [("dev_eui", JStr e)])).
Proof.
  intro Hf.
  destruct w as [st t l n f se tt last]. cbn [faults store] in *. subst f.
  unfold get_api_dev_eui_ultimo. leer. cbn [exec_consulta].
  destruct (primero actualizado_despues
              (filter (fun s => negb (sin_dev_eui coll_eqb s)) (sensores st)))
    as [|s r] eqn:E.
  - left. split; [reflexivity|].
    apply primero_vacio in E. intros s Hs.
    destruct (sin_dev_eui coll_eqb s) eqn:Hv; [reflexivity|].
    assert (Hin : In s (filter (fun s => negb (sin_dev_eui coll_eqb s)) (sensores st))).
    { apply filter_In. split; [exact Hs|]. now rewrite Hv. }
    rewrite E in Hin. destruct Hin.
  - right. destruct (primero_In _ _ E) as [Hin ->].
    apply filter_In in Hin as [Hin Hv].
    apply negb_true_iff in Hv.
    destruct (dev_eui s) as [x|] eqn:Hx.
    + exists s, x. repeat split; try assumption.
      cbn [flat_map]. unfold eui_de. rewrite Hx. reflexivity.
    + unfold sin_dev_eui in Hv. rewrite Hx in Hv. discriminate.
Qed.

End LecturasFacts.

(** X22: what the validator accepts are numbers, and apart from NaN (which
    no JSON body can carry) it accepts exactly the triples within the
    bounds: temperature in [-40, 85], humidity in [0, 100], index in
    [0, 120], ends included. *)
Theorem lecturaValida_exacta (t h i : value) :
  (lecturaValida t h i = true ->
   typeof t = "number" /\ typeof h = "number" /\ typeof i = "number")
  /\ (is_NaN t = false -> is_NaN h = false -> is_NaN i = false ->
      (lecturaValida t h i = true
       <-> in_range (-40 # 1) (85 # 1) t /\ in_range (0 # 1) (100 # 1) h
           /\ in_range (0 # 1) (120 # 1) i)).
Proof.
  assert (Hty : forall lo hi v, pasa lo hi v -> typeof v = "number").
  { intros lo hi v [H | [q [-> _]]]; [|reflexivity].
    destruct v as [| |b|n|s|]; try discriminate H. reflexivity. }
  split.
  - intro H. apply lecturaValida_pasa in H as [Ht [Hh Hi]].
    repeat split; eapply Hty; eassumption.
  - intros Ht Hh Hi. rewrite lecturaValida_pasa. unfold pasa.
    rewrite Ht, Hh, Hi. intuition discriminate.
Qed.

Lemma fold_mejor_max (l : list medicion) (acc : option medicion) (b : medicion) :
  fold_left (fun mejor x =>
               match mejor with
               | None => Some x
               | Some b => if medicion_posterior x b then Some x else Some b
               end) l acc = Some b ->
  (forall c, acc = Some c -> id_medicion c <= id_medicion b)
  /\ (forall x, In x l -> id_medicion x <= id_medicion b).
Proof.
  revert acc. induction l as [|x r IH]; intros acc H; simpl in *.
  - split; [|intros x []]. intros c Hc. rewrite Hc in H. injection H as <-. lia.
  - destruct (IH _ H) as [Hacc Hr]. destruct acc as [c|].
    + unfold medicion_posterior in Hacc.
      destruct (id_medicion c <? id_medicion x) eqn:E.
      * apply Z.ltb_lt in E. pose proof (Hacc _ eq_refl) as Hx. split.
        -- intros c' Hc'. injection Hc' as <-. lia.
        -- intros y [<-|Hy]; [exact Hx|now apply Hr].
      * apply Z.ltb_ge in E. pose proof (Hacc _ eq_refl) as Hc. split.
        -- intros c' Hc'. injection Hc' as <-. exact Hc.
        -- intros y [<-|Hy]; [lia|now apply Hr].
    + split; [discriminate|].
      intros y [<-|Hy]; [exact (Hacc _ eq_refl)|now apply Hr].
Qed.

Lemma primero_max (l : list medicion) (m : medicion) (r : list medicion) :
  primero medicion_posterior l = m :: r ->
  In m l /\ forall x, In x l -> id_medicion x <= id_medicion m.
Proof.
  intro H. split; [exact (proj1 (primero_In _ _ H))|].
  unfold primero in H.
  destruct (fold_left _ l None) as [c|] eqn:E; [|discriminate].
  injection H as <- <-. exact (proj2 (fold_mejor_max _ _ E)).
Qed.

Lemma id_sensor_es_iff (z : Z) (m : medicion) :
  id_sensor_es (inject_Z z) m = true <-> m_id_sensor m = Some z.
Proof.
  unfold id_sensor_es. destruct (m_id_sensor m) as [a|]; [|split; discriminate].
  rewrite Qeq_bool_iff, inject_Z_injective. split; congruence.
Qed.

Section UltimaMedicion.

Variable coll_eqb : string -> string -> bool.
Variable toUpperCase : string -> string.
Variable Number : string -> number.

#[local] Abbreviation run_lector := (run_lector coll_eqb).

Ltac leer :=
  cbv beta iota zeta delta
    [run_lector bindL pool_consulta try_catchL fila_o_404 eui_o_404
     faults store con_faults fst snd] in *.

(** X23: GET /mediciones without filters answers 500 when its statement
    fails; otherwise 404 exactly when the table is empty, and else the
    measurement of the table with the greatest id. *)
Theorem get_mediciones_ultima_es_la_ultima (w : world) :
  (forall e fs, faults w = Some e :: fs ->
     fst (run_lector get_mediciones_ultima w)
     = Returned (Otra (mkResponse 500 (Send "Error en base de datos"))))
  /\ (forall fs, faults w = [] \/ faults w = None :: fs ->
        (mediciones (store w) = []
         /\ fst (run_lector get_mediciones_ultima w)
            = Returned (Otra (mkResponse 404 (Send "No hay datos disponibles"))))
        \/ exists m,
             In m (mediciones (store w))
             /\ (forall m', In m' (mediciones (store w)) ->
                            id_medicion m' <= id_medicion m)
             /\ fst (run_lector get_mediciones_ultima w) = Returned (Fila m)).
Proof.
  destruct w as [st t l n f se tt last]. cbn [faults store].
  unfold get_mediciones_ultima. split.
  - intros e fs ->. reflexivity.
  - intros fs Hf.
    assert (E : fst (run_lector
                       (try_catchL
                          (bindL (pool_consulta SelectUltimaMedicion)
                             (fila_o_404 "No hay datos disponibles"))
                          (fun _ => RetL (Otra (mkResponse 500
                                                  (Send "Error en base de datos")))))
                       (mkWorld st t l n f se tt last))
                = match primero medicion_posterior (mediciones st) with
                  | m :: _ => Returned (Fila m)
                  | [] => Returned (Otra (mkResponse 404 (Send "No hay datos disponibles")))
                  end).
    { destruct Hf as [-> | ->]; leer; cbn [exec_consulta];
        destruct (primero medicion_posterior (mediciones st)); reflexivity. }
    rewrite E.
    destruct (primero medicion_posterior (mediciones st)) as [|m r] eqn:Ep.
    + left. split; [exact (primero_vacio _ _ Ep)|reflexivity].
    + right. exists m. destruct (primero_max _ Ep) as [Hin Hmax].
      split; [exact Hin|]. split; [exact Hmax|reflexivity].
Qed.

(** X24: GET /mediciones filtered by [id_sensor] alone: when the parameter
    reads as a non-zero integer and nothing fails, the call answers 404
    exactly when that sensor has no measurement, and else its measurement
    with the greatest id. *)
Theorem get_mediciones_por_sensor (query : mediciones_query) (w : world) (z : Z) :
  faults w = [] ->
  truthy (normalizarDevEui toUpperCase (q_dev_eui query)) = false ->
  truthy (q_id_sensor query) = true ->
  Number (texto (q_id_sensor query)) = Finite (inject_Z z) ->
  z <> 0 ->
  (fst (run_lector (get_mediciones toUpperCase Number query) w)
   = Returned (Otra (mkResponse 404 (Send "No hay datos")))
   /\ forall m, In m (mediciones (store w)) -> m_id_sensor m <> Some z)
  \/ exists m,
       In m (mediciones (store w)) /\ m_id_sensor m = Some z
       /\ (forall m', In m' (mediciones (store w)) -> m_id_sensor m' = Some z ->
                      id_medicion m' <= id_medicion m)
       /\ fst (run_lector (get_mediciones toUpperCase Number query) w)
          = Returned (Fila m).
Proof.
  intros Hf Hd Hi Hn Hz.
  destruct w as [st t l n f se tt last]. cbn [faults store] in *. subst f.
  unfold get_mediciones. rewrite Hd, Hi, Hn.
  assert (Ht : truthy_num (Finite (inject_Z z)) = true).
  { unfold truthy_num. apply negb_true_iff.
    destruct (Qeq_bool (inject_Z z) 0) eqn:E; [|reflexivity].
    apply Qeq_bool_iff in E. change 0%Q with (inject_Z 0) in E.
    rewrite inject_Z_injective in E. destruct (Hz E). }
  rewrite Ht. leer. cbn [exec_consulta].
  destruct (primero medicion_posterior
              (filter (id_sensor_es (inject_Z z)) (mediciones st))) as [|m r] eqn:Ep.
  - left. split; [reflexivity|].
    apply primero_vacio in Ep. intros m Hm Hs.
    assert (Hin : In m (filter (id_sensor_es (inject_Z z)) (mediciones st))).
    { apply filter_In. split; [exact Hm|]. now apply id_sensor_es_iff. }
    rewrite Ep in Hin. destruct Hin.
  - right. exists m. destruct (primero_max _ Ep) as [Hin Hmax].
    apply filter_In in Hin as [Hin Hs]. apply id_sensor_es_iff in Hs.
    split; [exact Hin|]. split; [exact Hs|]. split; [|reflexivity].
    intros m' Hm' Hs'. apply Hmax. apply filter_In. split; [exact Hm'|].
    now apply id_sensor_es_iff.
Qed.

End UltimaMedicion.

(* ===================================================================== *)
(** * Witnesses of the further properties *)
(* ===================================================================== *)

(** X2, witness: the pool refuses the connection of a call that names
    sensor 5. *)
Lemma put_actualizar_sin_respuesta_witness :
  con_selector req_vincular = true
  /\ run String.eqb mayusculas sin_espacios (put_actualizar req_vincular)
       (con_faults (mundo db_ejemplo) [Some (ER_OTRO "ETIMEDOUT")])
     = (Thrown (ER_OTRO "ETIMEDOUT"), con_faults (mundo db_ejemplo) []).
Proof.
  split; [reflexivity|].
  exact (proj1 (@put_actualizar_sin_respuesta String.eqb mayusculas sin_espacios
                  req_vincular (mundo db_ejemplo)
                  (ER_OTRO "ETIMEDOUT") (ER_OTRO "ECONNRESET") (ER_OTRO "ECONNRESET") []
                  eq_refl)).
Defined.

(** X4, witness: the uplink with a temperature of -41 is answered 422 and
    nothing moves. *)
Lemma post_webhook_rechaza_antes_witness :
  run String.eqb mayusculas sin_espacios (post_webhook mayusculas uplink_fuera_de_rango)
    (mundo db_ejemplo)
  = (Returned (mkResponse 422 (json_error "Lectura fuera de rango o no numérica")),
     mundo db_ejemplo)
  /\ (status (mkResponse 422 (json_error "Lectura fuera de rango o no numérica")) = 400
      \/ status (mkResponse 422 (json_error "Lectura fuera de rango o no numérica")) = 422 ->
      mundo db_ejemplo = mundo db_ejemplo).
Proof.
  split; [reflexivity|].
  exact (proj1 (@post_webhook_rechaza_antes String.eqb mayusculas sin_espacios mayusculas
                  uplink_fuera_de_rango (mundo db_ejemplo) (mundo db_ejemplo)
                  (mkResponse 422 (json_error "Lectura fuera de rango o no numérica"))
                  eq_refl)).
Defined.

(** X5, witness: the uplink of an unseen device when the insert of the
    measurement fails: the placeholder 7 stays and nothing is measured. *)
Lemma post_webhook_deja_el_sensor_witness :
  fst (run String.eqb mayusculas sin_espacios (post_webhook mayusculas uplink_nuevo)
         (con_faults (mundo db_ejemplo) [None; None; Some (ER_OTRO "ER_LOCK_WAIT_TIMEOUT")]))
  = Returned (mkResponse 500 (Send "Error en base de datos"))
  /\ sensores (store (snd (run String.eqb mayusculas sin_espacios
                             (post_webhook mayusculas uplink_nuevo)
                             (con_faults (mundo db_ejemplo)
                                [None; None; Some (ER_OTRO "ER_LOCK_WAIT_TIMEOUT")]))))
     = [sensor_5; sensor_6;
        nuevo_sensor 7 "TTN-0011223344556677" (Some "0011223344556677") None]
  /\ mediciones (store (snd (run String.eqb mayusculas sin_espacios
                               (post_webhook mayusculas uplink_nuevo)
                               (con_faults (mundo db_ejemplo)
                                  [None; None; Some (ER_OTRO "ER_LOCK_WAIT_TIMEOUT")]))))
     = [].
Proof.
  exact (proj2 (@post_webhook_deja_el_sensor String.eqb mayusculas sin_espacios mayusculas
                  uplink_nuevo
                  (con_faults (mundo db_ejemplo)
                     [None; None; Some (ER_OTRO "ER_LOCK_WAIT_TIMEOUT")]))
           (mkLectura (num (25 # 1)) (num (60 # 1)) (num (70 # 1)))
           "0011223344556677" (ER_OTRO "ER_LOCK_WAIT_TIMEOUT") []
           eq_refl eq_refl eq_refl eq_refl eq_refl eq_refl).
Defined.


(** X11, witness: [{id_sensor: 99, modo: "manual"}] on the example tables. *)
Lemma put_actualizar_sin_coincidencia_witness :
  faults (mundo db_ejemplo) = []
  /\ tx (mundo db_ejemplo) = None
  /\ con_selector req_desconocido = true
  /\ filter (cumple String.eqb (seleccion req_desconocido)) (sensores (store (mundo db_ejemplo)))
     = []
  /\ fst (run String.eqb mayusculas sin_espacios (put_actualizar req_desconocido)
            (mundo db_ejemplo))
     = Returned (mkResponse 200 (Json [("ok", JBool true); ("affected", JNum 0)]))
  /\ store (snd (run String.eqb mayusculas sin_espacios (put_actualizar req_desconocido)
                   (mundo db_ejemplo)))
     = db_ejemplo.
Proof.
  split; [reflexivity|]. split; [reflexivity|]. split; [reflexivity|].
  split; [reflexivity|].
  exact (@put_actualizar_sin_coincidencia String.eqb mayusculas sin_espacios
           req_desconocido (mundo db_ejemplo) eq_refl eq_refl eq_refl eq_refl).
Defined.

(** X12, witness: attaching an EUI to sensor 5 changes no identity. *)
Lemma put_actualizar_marco_witness :
  tx (mundo db_ejemplo) = None
  /\ Forall2 misma_identidad
       (sensores (store (mundo db_ejemplo)))
       (sensores (store (snd (run String.eqb mayusculas sin_espacios
                                (put_actualizar req_vincular) (mundo db_ejemplo)))))
  /\ map dev_eui
       (sensores (store (snd (run String.eqb mayusculas sin_espacios
                                (put_actualizar req_vincular) (mundo db_ejemplo)))))
     = [Some "0011223344556677"; Some "AABBCCDDEEFF0011"].
Proof.
  split; [reflexivity|]. split; [|reflexivity].
  exact (proj1 (@put_actualizar_marco String.eqb mayusculas sin_espacios
                  req_vincular (mundo db_ejemplo) eq_refl)).
Defined.

(** X13, witness: an unseen EUI on the example tables. *)
Lemma getOrCreateSensorByDevEui_resuelve_witness :
  (forall s, String.eqb s s = true)
  /\ exists s,
       In s (sensores (store (snd (run String.eqb mayusculas sin_espacios
                                     (getOrCreateSensorByDevEui "0011223344556677")
                                     (mundo db_ejemplo)))))
       /\ id_sensor s = 7
       /\ dev_eui_es String.eqb "0011223344556677" s = true
       /\ (store (snd (run String.eqb mayusculas sin_espacios
                         (getOrCreateSensorByDevEui "0011223344556677")
                         (mundo db_ejemplo)))
           = store (mundo db_ejemplo)
           \/ sensores (store (snd (run String.eqb mayusculas sin_espacios
                                      (getOrCreateSensorByDevEui "0011223344556677")
                                      (mundo db_ejemplo))))
              = (sensores (store (mundo db_ejemplo)) ++ [s])%list).
Proof.
  split; [exact String.eqb_refl|].
  exact (@getOrCreateSensorByDevEui_resuelve String.eqb mayusculas sin_espacios
           String.eqb_refl "0011223344556677" (mundo db_ejemplo)).
Defined.

(** X14, witness: registering "Nave 3" with the EUI of the unseen device. *)
Lemma post_sensores_alta_witness :
  (forall s, String.eqb s s = true)
  /\ faults (mundo db_ejemplo) = []
  /\ truthy (s_nombre_sensor req_alta) = true
  /\ normalizarDevEui mayusculas (s_dev_eui req_alta) = Some "0011223344556677"
  /\ filter (dev_eui_es String.eqb "0011223344556677") (sensores (store (mundo db_ejemplo)))
     = []
  /\ exists w1,
       run String.eqb mayusculas sin_espacios (post_sensores mayusculas req_alta)
         (mundo db_ejemplo)
       = (Returned (mkResponse 201
                      (Json [("id_sensor", JNum 7); ("mensaje", JStr "Sensor guardado")])),
          w1)
       /\ sensores (store w1)
          = [sensor_5; sensor_6;
             nuevo_sensor 7 "Nave 3" (Some "0011223344556677") (Some 1)]
       /\ mediciones (store w1) = []
       /\ run String.eqb mayusculas sin_espacios
            (getOrCreateSensorByDevEui "0011223344556677") w1
          = (Returned 7, w1).
Proof.
  split; [exact String.eqb_refl|]. split; [reflexivity|]. split; [reflexivity|].
  split; [reflexivity|]. split; [reflexivity|].
  destruct (@post_sensores_alta String.eqb mayusculas sin_espacios mayusculas
              String.eqb_refl req_alta "0011223344556677" (mundo db_ejemplo)
              eq_refl eq_refl eq_refl eq_refl) as [w1 [H1 [H2 [H3 [H4 _]]]]].
  exists w1. split; [exact H1|]. split; [exact H2|]. split; [exact H3|exact H4].
Defined.

(** X15, witness: registering "Nave 3" with the EUI of sensor 6. *)
Lemma post_sensores_duplicado_witness :
  truthy (s_nombre_sensor req_alta_repetida) = true
  /\ normalizarDevEui mayusculas (s_dev_eui req_alta_repetida) = Some "AABBCCDDEEFF0011"
  /\ filter (dev_eui_es String.eqb "AABBCCDDEEFF0011") (sensores (store (mundo db_ejemplo)))
     = [sensor_6]
  /\ fst (run String.eqb mayusculas sin_espacios (post_sensores mayusculas req_alta_repetida)
            (mundo db_ejemplo))
     = Returned (mkResponse 500 (Send "Error en base de datos"))
  /\ store (snd (run String.eqb mayusculas sin_espacios
                   (post_sensores mayusculas req_alta_repetida) (mundo db_ejemplo)))
     = db_ejemplo.
Proof.
  split; [reflexivity|]. split; [reflexivity|]. split; [reflexivity|].
  exact (@post_sensores_duplicado String.eqb mayusculas sin_espacios mayusculas
           req_alta_repetida "AABBCCDDEEFF0011" (mundo db_ejemplo) sensor_6 []
           eq_refl eq_refl eq_refl).
Defined.

(** X17, witness: a colon inside "0011", and the lower-case "aabb". *)
Lemma normalizarDevEui_separadores_witness :
  upper_on_ascii mayusculas
  /\ normalizarDevEui mayusculas (Some "00:11") = normalizarDevEui mayusculas (Some "0011")
  /\ normalizarDevEui mayusculas (Some "AABB") = normalizarDevEui mayusculas (Some "aabb").
Proof.
  split; [exact upper_on_ascii_mayusculas|].
  split.
  - exact (proj1 (@normalizarDevEui_separadores mayusculas upper_on_ascii_mayusculas
                    "00" "11" ":"%char eq_refl eq_refl eq_refl eq_refl
                    ltac:(discriminate))).
  - exact (proj2 (@normalizarDevEui_separadores mayusculas upper_on_ascii_mayusculas
                    "aa" "bb" ":"%char eq_refl eq_refl eq_refl eq_refl
                    ltac:(discriminate))).
Defined.

(** X18, witness: an uplink of sensor 6 on tables that hold two
    measurements is stored as measurement 3, and a query by the lower-case
    EUI returns it. *)
Lemma post_webhook_y_get_mediciones_witness :
  (forall s, String.eqb s s = true)
  /\ faults (mundo db_con_medidas) = []
  /\ (forall m, In m (mediciones (store (mundo db_con_medidas))) ->
                id_medicion m < auto_medicion (store (mundo db_con_medidas)))
  /\ exists m,
       mediciones (store (snd (run String.eqb mayusculas sin_espacios
                                 (post_webhook mayusculas uplink_6)
                                 (mundo db_con_medidas))))
       = (mediciones (store (mundo db_con_medidas)) ++ [m])%list
       /\ (temperatura m, humedad m, ith m) = (num (25 # 1), num (60 # 1), num (70 # 1))
       /\ run_lector String.eqb
            (get_mediciones mayusculas numero_de_digitos
               (mkMedicionesQuery (Some "aabbccddeeff0011") (Some "5")))
            (snd (run String.eqb mayusculas sin_espacios
                    (post_webhook mayusculas uplink_6) (mundo db_con_medidas)))
          = (Returned (Fila m),
             snd (run String.eqb mayusculas sin_espacios
                    (post_webhook mayusculas uplink_6) (mundo db_con_medidas))).
Proof.
  assert (Hids : forall m, In m (mediciones (store (mundo db_con_medidas))) ->
                           id_medicion m < auto_medicion (store (mundo db_con_medidas))).
  { intros m [<-|[<-|[]]]; reflexivity. }
  split; [exact String.eqb_refl|]. split; [reflexivity|]. split; [exact Hids|].
  destruct (@post_webhook_y_get_mediciones String.eqb mayusculas sin_espacios mayusculas
              numero_de_digitos String.eqb_refl uplink_6
              (mkLectura (num (25 # 1)) (num (60 # 1)) (num (70 # 1)))
              "AABBCCDDEEFF0011" (mundo db_con_medidas)
              eq_refl eq_refl eq_refl eq_refl eq_refl Hids) as [m [H1 [H2 H3]]].
  exists m. split; [exact H1|]. split; [exact H2|].
  exact (H3 "aabbccddeeff0011" (Some "5") eq_refl).
Defined.

(** X19, witness: [?dev_eui=zz&id_sensor=abc] returns measurement 2, the
    latest of the table, which belongs to sensor 7. *)
Lemma get_mediciones_filtro_ignorado_witness :
  truthy (normalizarDevEui mayusculas (Some "zz")) = false
  /\ truthy_num (numero_de_digitos "abc") = false
  /\ fst (run_lector String.eqb
            (get_mediciones mayusculas numero_de_digitos
               (mkMedicionesQuery (Some "zz") (Some "abc")))
            (mundo db_con_medidas))
     = Returned (Fila (mkMedicion 2 (Some 7) (num (22 # 1)) (num (58 # 1)) (num (69 # 1)))).
Proof.
  split; [reflexivity|]. split; [reflexivity|].
  exact (proj2 (@get_mediciones_filtro_ignorado String.eqb mayusculas numero_de_digitos
                  (mkMedicionesQuery (Some "zz") (Some "abc")) (mundo db_con_medidas)
                  eq_refl (fun _ => eq_refl))
           eq_refl _ [] eq_refl).
Defined.

(** X20, witness: on a schema without [updated_at] the handler answers with
    the EUI of the sensor of greatest id. *)
Lemma get_api_dev_eui_ultimo_respaldo_witness :
  es_bad_field (ER_OTRO "ER_BAD_FIELD_ERROR") = true
  /\ run_lector String.eqb get_api_dev_eui_ultimo
       (con_faults (mundo db_con_medidas) [Some (ER_OTRO "ER_BAD_FIELD_ERROR")])
     = (Returned (mkResponse 200 (Json [("dev_eui", JStr "70B3D57ED0000007")])),
        mundo db_con_medidas).
Proof.
  split; [reflexivity|].
  exact (proj1 (@get_api_dev_eui_ultimo_respaldo String.eqb (mundo db_con_medidas)
                  (ER_OTRO "ER_BAD_FIELD_ERROR") []) eq_refl).
Defined.

(** X21, witness: on the example tables only sensor 6 has an EUI. *)
Lemma get_api_dev_eui_ultimo_existe_witness :
  faults (mundo db_ejemplo) = []
  /\ ((fst (run_lector String.eqb get_api_dev_eui_ultimo (mundo db_ejemplo))
       = Returned (mkResponse 404 (json_error "sin_dev_eui"))
       /\ forall s, In s (sensores (store (mundo db_ejemplo))) ->
                    sin_dev_eui String.eqb s = true)
      \/ exists s e,
           In s (sensores (store (mundo db_ejemplo))) /\ dev_eui s = Some e
           /\ sin_dev_eui String.eqb s = false
           /\ fst (run_lector String.eqb get_api_dev_eui_ultimo (mundo db_ejemplo))
              = Returned (mkResponse 200 (Json [("dev_eui", JStr e)]))).
Proof.
  split; [reflexivity|].
  exact (@get_api_dev_eui_ultimo_existe String.eqb (mundo db_ejemplo) eq_refl).
Defined.

(** X22, witness: the reading 25, 60, 70. *)
Lemma lecturaValida_exacta_witness :
  lecturaValida (num (25 # 1)) (num (60 # 1)) (num (70 # 1)) = true
  /\ in_range (-40 # 1) (85 # 1) (num (25 # 1))
  /\ in_range (0 # 1) (100 # 1) (num (60 # 1))
  /\ in_range (0 # 1) (120 # 1) (num (70 # 1)).
Proof.
  split; [reflexivity|].
  exact (proj1 (proj2 (lecturaValida_exacta (num (25 # 1)) (num (60 # 1)) (num (70 # 1)))
                  eq_refl eq_refl eq_refl) eq_refl).
Defined.

(** X23, witness: on the tables with two measurements the answer is one of
    the table that no other exceeds. *)
Lemma get_mediciones_ultima_es_la_ultima_witness :
  faults (mundo db_con_medidas) = []
  /\ ((mediciones (store (mundo db_con_medidas)) = []
       /\ fst (run_lector String.eqb get_mediciones_ultima (mundo db_con_medidas))
          = Returned (Otra (mkResponse 404 (Send "No hay datos disponibles"))))
      \/ exists m,
           In m (mediciones (store (mundo db_con_medidas)))
           /\ (forall m', In m' (mediciones (store (mundo db_con_medidas))) ->
                          id_medicion m' <= id_medicion m)
           /\ fst (run_lector String.eqb get_mediciones_ultima (mundo db_con_medidas))
              = Returned (Fila m)).
Proof.
  split; [reflexivity|].
  exact (proj2 (@get_mediciones_ultima_es_la_ultima String.eqb (mundo db_con_medidas))
           [] (or_introl eq_refl)).
Defined.

(** X24, witness: [?id_sensor=6] on the tables with two measurements. *)
Lemma get_mediciones_por_sensor_witness :
  faults (mundo db_con_medidas) = []
  /\ numero_de_digitos "6" = Finite (inject_Z 6)
  /\ ((fst (run_lector String.eqb
              (get_mediciones mayusculas numero_de_digitos
                 (mkMedicionesQuery None (Some "6")))
              (mundo db_con_medidas))
       = Returned (Otra (mkResponse 404 (Send "No hay datos")))
       /\ forall m, In m (mediciones (store (mundo db_con_medidas))) ->
                    m_id_sensor m <> Some 6)
      \/ exists m,
           In m (mediciones (store (mundo db_con_medidas))) /\ m_id_sensor m = Some 6
           /\ (forall m', In m' (mediciones (store (mundo db_con_medidas))) ->
                          m_id_sensor m' = Some 6 -> id_medicion m' <= id_medicion m)
           /\ fst (run_lector String.eqb
                     (get_mediciones mayusculas numero_de_digitos
                        (mkMedicionesQuery None (Some "6")))
                     (mundo db_con_medidas))
              = Returned (Fila m)).
Proof.
  split; [reflexivity|]. split; [reflexivity|].
  exact (@get_mediciones_por_sensor String.eqb mayusculas numero_de_digitos
           (mkMedicionesQuery None (Some "6")) (mundo db_con_medidas) 6
           eq_refl eq_refl eq_refl eq_refl
           ltac:(discriminate)).
Defined.
